(** * Ride sharing: fallback pathfinder, pricing, proximity matcher and
      recommendation pipeline

    A shallow embedding of [algorithms/astar.ts],
    [algorithms/recommendations.ts] and of [findMatchingRides] from
    [services/rideService.ts].

    JavaScript numbers are IEEE 754 binary64 values, and so are Rocq's
    primitive floats: [+], [-], [*], [/], [sqrt], [abs] and the comparisons
    of [PrimFloat] are the operations the source runs.  What the source
    takes from the JavaScript runtime and [PrimFloat] does not have
    ([Math.sin], [Math.cos], [Math.atan2]) is a parameter, the record
    [MathLib].  The one object the source mutates in place, the
    [preferredVehicleTypes] array of a profile, lives in a store addressed
    by references, so that two profiles can share it. *)

From Stdlib Require Import ZArith List String Bool Lia Floats Sorted Permutation.
From Stdlib Require Uint63.
From stdpp Require Import gmap strings.
Import ListNotations.

Set Warnings "-inexact-float,-register-all".
Local Open Scope float_scope.

(* ################################################################# *)
(** * The JavaScript runtime *)

Module JS.

(** [Math.max] and [Math.min] on two arguments: NaN wins, and +0 is
    larger than -0. *)
Definition is_neg_zero (x : float) : bool :=
  match classify x with NZero => true | _ => false end.

Definition Math_max (a b : float) : float :=
  if is_nan a || is_nan b then nan
  else if a <? b then b
  else if b <? a then a
  else if is_neg_zero a then b else a.

Definition Math_min (a b : float) : float :=
  if is_nan a || is_nan b then nan
  else if a <? b then a
  else if b <? a then b
  else if is_neg_zero a then a else b.

Definition Math_abs (x : float) : float := abs x.
Definition Math_sqrt (x : float) : float := sqrt x.
Definition Math_PI : float := 0x1.921fb54442d18p+1.

(** [x || 0] on numbers: NaN, +0 and -0 are falsy. *)
Definition or_zero (x : float) : float :=
  if is_nan x || (x =? 0) then 0 else x.

(** An array length (below 2^32 in JavaScript) as a number. *)
Definition of_length (n : nat) : float := of_uint63 (Uint63Axioms.of_Z (Z.of_nat n)).

(** The transcendental functions of [Math]. *)
Record MathLib := mkMath {
  sin : float -> float;
  cos : float -> float;
  atan2 : float -> float -> float
}.

(** What ECMAScript fixes about them at the points used below:
    [Math.sin(+0)] is [+0], [Math.cos(+0)] is [1], [Math.atan2(+0, 1)] is
    [+0], and NaN propagates. *)
Record MathSpec (M : MathLib) : Prop := mkMathSpec {
  sin_zero : sin M 0 = 0;
  cos_zero : cos M 0 = 1;
  atan2_zero_one : atan2 M 0 1 = 0;
  sin_nan : sin M nan = nan;
  atan2_nan : atan2 M nan nan = nan
}.

(** ** [Array.prototype.sort] with a numeric comparator

    The sort is stable; [x] moves behind [y] when [cmp x y > 0].  A NaN
    from the comparator counts as 0. *)
Section Sort.
Context {A : Type} (cmp : A -> A -> float).

Fixpoint sort_insert (x : A) (l : list A) : list A :=
  match l with
  | [] => [x]
  | y :: l' => if 0 <? cmp x y then y :: sort_insert x l' else x :: l
  end.

Fixpoint sort (l : list A) : list A :=
  match l with
  | [] => []
  | x :: l' => sort_insert x (sort l')
  end.
End Sort.

(** ** [Number.prototype.toFixed] and [parseFloat]

    The string [toFixed] returns is kept in structured form. *)
Inductive NumberString :=
| StrNaN
| StrInfinity (neg : bool)
| StrFixed (neg : bool) (n : N) (digits : nat)
    (* the decimal digits of [n], with a point before the last [digits] *)
| StrNumber (x : float).
    (* Number::toString of [x], taken when |x| >= 10^21 *)

(** The integer [n] for which [n / 10^digits - m * 2^e] is closest to zero,
    the larger one on a tie. *)
Definition nearest_scaled (m : positive) (e : Z) (digits : nat) : N :=
  let q := (Z.pos m * 10 ^ Z.of_nat digits)%Z in
  match e with
  | Z0 => Z.to_N q
  | Zpos _ => Z.to_N (q * 2 ^ e)%Z
  | Zneg k => Z.to_N ((q + 2 ^ (Z.pos k - 1)) / 2 ^ Z.pos k)%Z
  end.

Definition toFixed (x : float) (digits : nat) : NumberString :=
  match Prim2SF x with
  | S754_nan => StrNaN
  | S754_infinity s => StrInfinity s
  | S754_zero _ => StrFixed false 0 digits
  | S754_finite s m e =>
      if 1e21 <=? abs x then StrNumber x
      else StrFixed s (nearest_scaled m e digits) digits
  end.

(** [parseFloat] on the strings above: the double nearest to the decimal. *)
Definition parseFloat (s : NumberString) : float :=
  match s with
  | StrNaN => nan
  | StrInfinity neg => if neg then neg_infinity else infinity
  | StrNumber x => x
  | StrFixed neg n digits =>
      match n with
      | N0 => if neg then (-0) else 0
      | Npos p =>
          SF2Prim (SFdiv prec emax (S754_finite neg p 0)
                     (S754_finite false (Z.to_pos (10 ^ Z.of_nat digits)) 0))
      end
  end.

(** ** A concrete [Math]

    Polynomial approximations, accurate to a few units in the last place
    for arguments in [[-pi, pi]] (all that coordinates in range produce);
    they run the embedding on concrete inputs. *)
Fixpoint sin_series (n : nat) (k term x2 acc : float) : float :=
  match n with
  | O => acc
  | S n' =>
      let term' := - (term * x2) / ((k + 1) * (k + 2)) in
      sin_series n' (k + 2) term' x2 (acc + term')
  end.

Definition ref_sin (x : float) : float := sin_series 16 1 x (x * x) x.
Definition ref_cos (x : float) : float := sin_series 16 0 1 (x * x) 1.

Fixpoint atan_series (n : nat) (k power x2 acc : float) : float :=
  match n with
  | O => acc
  | S n' =>
      let power' := - (power * x2) in
      atan_series n' (k + 2) power' x2 (acc + power' / (k + 2))
  end.

(** [atan] on [[-1, 1]]: two half-angle reductions, then the series. *)
Definition ref_atan_small (t : float) : float :=
  let t1 := t / (1 + sqrt (1 + t * t)) in
  let t2 := t1 / (1 + sqrt (1 + t1 * t1)) in
  4 * atan_series 14 1 t2 (t2 * t2) t2.

Definition ref_atan (t : float) : float :=
  if abs t <=? 1 then ref_atan_small t
  else if 0 <? t then Math_PI / 2 - ref_atan_small (1 / t)
  else - (Math_PI / 2) - ref_atan_small (1 / t).

Definition ref_atan2 (y x : float) : float :=
  if is_nan y || is_nan x then nan
  else if 0 <? x then ref_atan (y / x)
  else if x <? 0 then
    (if y <? 0 then ref_atan (y / x) - Math_PI else ref_atan (y / x) + Math_PI)
  else if 0 <? y then Math_PI / 2
  else if y <? 0 then - (Math_PI / 2)
  else if is_neg_zero x then (if is_neg_zero y then - Math_PI else Math_PI)
  else y.

Definition refMath : MathLib := mkMath ref_sin ref_cos ref_atan2.

End JS.
Import JS.

(* ################################################################# *)
(** * algorithms/astar.ts *)

Record Location := mkLocation { lat : float; lng : float }.

Definition EARTH_RADIUS_KM : float := 6371.

Section Astar.
Variable M : MathLib.

Definition toRadians (degrees : float) : float := degrees * (Math_PI / 180).

Definition haversineDistance (loc1 loc2 : Location) : float :=
  let dLat := toRadians (lat loc2 - lat loc1) in
  let dLng := toRadians (lng loc2 - lng loc1) in
  let a :=
    sin M (dLat / 2) * sin M (dLat / 2) +
    cos M (toRadians (lat loc1)) *
    cos M (toRadians (lat loc2)) *
    sin M (dLng / 2) * sin M (dLng / 2) in
  let c := 2 * atan2 M (Math_sqrt a) (Math_sqrt (1 - a)) in
  EARTH_RADIUS_KM * c.

(** A search node; [parent] links a node to the node it was discovered
    from. *)
Inductive PathNode := mkNode {
  location : Location;
  g : float;
  h : float;
  f : float;
  parent : option PathNode
}.

(** [while (node) { path.push(node.location); node = node.parent; }] *)
Fixpoint parentChain (node : PathNode) : list Location :=
  match node with
  | mkNode l _ _ _ p =>
      l :: match p with Some n => parentChain n | None => [] end
  end.

(** The test the source uses for "same node": both coordinates closer
    than 0.0001 degrees. *)
Definition sameNode (neighborLoc : Location) (n : PathNode) : bool :=
  (Math_abs (lat (location n) - lat neighborLoc) <? 0.0001) &&
  (Math_abs (lng (location n) - lng neighborLoc) <? 0.0001).

Definition generateNeighbors (current goal : Location) : list Location :=
  let step := 0.01 in
  let directionLat := if lat current <? lat goal then 1 else -1 in
  let directionLng := if lng current <? lng goal then 1 else -1 in
  [ mkLocation (lat current + step * directionLat) (lng current);
    mkLocation (lat current) (lng current + step * directionLng);
    mkLocation (lat current + step * directionLat)
               (lng current + step * directionLng) ].

(** [openSet[openSet.indexOf(existingNode)] = neighborNode], where
    [existingNode] is the first node of [openSet] that [p] accepts. *)
Fixpoint replaceFirst (p : PathNode -> bool) (new : PathNode)
    (openSet : list PathNode) : list PathNode :=
  match openSet with
  | [] => []
  | n :: rest => if p n then new :: rest else n :: replaceFirst p new rest
  end.

(** One turn of [for (const neighborLoc of neighbors)]; the result is the
    open set after it. *)
Definition visitNeighbor (current : PathNode) (segmentEnd : Location)
    (closedSet openSet : list PathNode) (neighborLoc : Location)
    : list PathNode :=
  if existsb (sameNode neighborLoc) closedSet then openSet
  else
    let gScore := g current + haversineDistance (location current) neighborLoc in
    let hScore := haversineDistance neighborLoc segmentEnd in
    let neighborNode :=
      mkNode neighborLoc gScore hScore (gScore + hScore) (Some current) in
    match find (sameNode neighborLoc) openSet with
    | Some existingNode =>
        if g existingNode <=? gScore then openSet
        else replaceFirst (sameNode neighborLoc) neighborNode openSet
    | None => openSet ++ [neighborNode]
    end.

(** The state of a call: the locations pushed on [path] so far (in push
    order) and [totalDistance]. *)
Definition acc : Type := list Location * float.

(** [while (openSet.length > 0)]; [fuel] bounds the number of turns, and
    [None] means the bound was reached. *)
Fixpoint search (fuel : nat) (segmentStart segmentEnd : Location)
    (openSet closedSet : list PathNode) (st : acc) : option acc :=
  match fuel with
  | O => None
  | S fuel' =>
      match sort (fun a b => f a - f b) openSet with
      | [] => Some st
      | current :: openSet1 =>
          if haversineDistance (location current) segmentEnd <? 0.1 then
            Some (fst st ++ parentChain current, snd st + g current)
          else
            let closedSet' := closedSet ++ [current] in
            let openSet2 :=
              fold_left (visitNeighbor current segmentEnd closedSet')
                (generateNeighbors (location current) segmentEnd) openSet1 in
            match openSet2 with
            | [] =>
                Some (fst st ++ [segmentStart; segmentEnd],
                      snd st + haversineDistance segmentStart segmentEnd)
            | _ :: _ => search fuel' segmentStart segmentEnd openSet2 closedSet' st
            end
      end
  end.

Definition startNode (segmentStart segmentEnd : Location) : PathNode :=
  let h0 := haversineDistance segmentStart segmentEnd in
  mkNode segmentStart 0 h0 (0 + h0) None.

(** [for (let i = 0; i < allPoints.length - 1; i++)] *)
Fixpoint segments (fuel : nat) (allPoints : list Location) (st : acc)
    : option acc :=
  match allPoints with
  | segmentStart :: ((segmentEnd :: _) as rest) =>
      match search fuel segmentStart segmentEnd
              [startNode segmentStart segmentEnd] [] st with
      | Some st' => segments fuel rest st'
      | None => None
      end
  | _ => Some st
  end.

Record Route := mkRoute { path : list Location; totalDistance : float }.

Definition astarPathfinding (fuel : nat) (start goal : Location)
    (waypoints : list Location) : option Route :=
  let allPoints := start :: waypoints ++ [goal] in
  match segments fuel allPoints ([], 0) with
  | Some (path, totalDistance) => Some (mkRoute (rev path) totalDistance)
  | None => None
  end.

End Astar.

Definition calculatePrice (distanceKm : float) (vehicleType : string) : float :=
  let baseFare := 2.5 in
  let pricePerKm :=
    if String.eqb vehicleType "economy" then 1.0
    else if String.eqb vehicleType "comfort" then 1.5
    else if String.eqb vehicleType "premium" then 2.5
    else 1.2 in
  parseFloat (toFixed (baseFare + distanceKm * pricePerKm) 2).

(** [findNearbyRides] is declared further down, once [Ride] is. *)

(* ################################################################# *)
(** * algorithms/recommendations.ts *)

Inductive TimeOfDay := morning | afternoon | evening | night.
Inductive ConversationLevel := quiet | moderate | chatty.

#[global] Instance TimeOfDay_eq_dec : EqDecision TimeOfDay.
Proof. solve_decision. Defined.
#[global] Instance ConversationLevel_eq_dec : EqDecision ConversationLevel.
Proof. solve_decision. Defined.

(** A [Date] is kept as its three readings the source uses. *)
Record Date := mkDate { getTime : Z; getHours : Z; getDay : Z }.

Record RideHistory := mkRideHistory {
  h_pickup : Location;
  h_dropoff : Location;
  h_timestamp : Date;
  h_price : float;
  h_vehicleType : string;
  h_rating : float;
  h_timeOfDay : TimeOfDay;
  h_dayOfWeek : Z
}.

(** A reference to a [string[]] in the store. *)
Definition ref := nat.
Abbreviation store := (gmap nat (list string)).

Record UserPreferences := mkUserPreferences {
  preferredVehicleTypes : ref;
  maxPrice : float;
  preferredDriverRatings : float;
  smokingPreference : bool;
  musicPreference : bool;
  conversationPreference : ConversationLevel
}.

Record UserProfile := mkUserProfile {
  u_id : string;
  rideHistory : list RideHistory;
  preferences : UserPreferences;
  ratings : list float;
  frequentLocations : list Location
}.

Record DriverPreferences := mkDriverPreferences {
  smokingAllowed : bool;
  musicPlaying : bool;
  conversationLevel : ConversationLevel
}.

Record Driver := mkDriver {
  d_id : string;
  d_rating : float;
  totalRides : float;
  d_vehicleType : string;
  d_preferences : DriverPreferences;
  d_rideHistory : list RideHistory
}.

Record Ride := mkRide {
  r_id : string;
  driver : Driver;
  pickup_lat : float;
  pickup_lng : float;
  dropoff_lat : float;
  dropoff_lng : float;
  price : float;
  vehicle_type : string;
  distance_km : float;
  estimated_duration_min : float
}.

(** [array.includes(v)] on strings. *)
Definition includes (l : list string) (v : string) : bool :=
  existsb (String.eqb v) l.

(** The array behind a reference. *)
Definition deref (σ : store) (r : ref) : list string := σ !!! r.

Definition getTimeOfDay (hour : Z) : TimeOfDay :=
  if ((5 <=? hour) && (hour <? 12))%Z then morning
  else if ((12 <=? hour) && (hour <? 17))%Z then afternoon
  else if ((17 <=? hour) && (hour <? 22))%Z then evening
  else night.

Section Recommendations.
Variable M : MathLib.

Let haversineDistance := haversineDistance M.

(** ** Deductive filter *)
Definition passesRules (σ : store) (userProfile : UserProfile)
    (userLocation : Location) (ride : Ride) : bool :=
  if maxPrice (preferences userProfile) <? price ride then false
  else if d_rating (driver ride) <? preferredDriverRatings (preferences userProfile)
  then false
  else if
    (0 <? length (deref σ (preferredVehicleTypes (preferences userProfile))))%nat &&
    negb (includes (deref σ (preferredVehicleTypes (preferences userProfile)))
            (vehicle_type ride))
  then false
  else if
    negb (Bool.eqb (smokingPreference (preferences userProfile))
            (smokingAllowed (d_preferences (driver ride))))
  then false
  else
    let pickupDistance :=
      haversineDistance userLocation
        (mkLocation (pickup_lat ride) (pickup_lng ride)) in
    if 5 <? pickupDistance then false
    else true.

Definition deductiveFiltering (σ : store) (rides : list Ride)
    (userProfile : UserProfile) (userLocation destination : Location)
    : list Ride :=
  List.filter (passesRules σ userProfile userLocation) rides.

(** ** Helpers for pattern recognition *)
Definition calculateRouteSimilarity (pickup dropoff : Location)
    (history : list RideHistory) : float :=
  if (length history =? 0)%nat then 0
  else
    let similarRoutes :=
      List.filter (fun ride =>
        let pickupDist := haversineDistance pickup (h_pickup ride) in
        let dropoffDist := haversineDistance dropoff (h_dropoff ride) in
        (pickupDist <? 1) && (dropoffDist <? 1)) history in
    let avgRating :=
      or_zero (fold_left (fun sum r => sum + h_rating r) similarRoutes 0
               / of_length (length similarRoutes)) in
    (of_length (length similarRoutes) / of_length (length history))
    * (avgRating / 5).

Definition calculateTimePreference (currentHour : Z) (vehicleType : string)
    (history : list RideHistory) : float :=
  let timeOfDay := getTimeOfDay currentHour in
  let relevantRides :=
    List.filter (fun h =>
      bool_decide (h_timeOfDay h = timeOfDay) &&
      String.eqb (h_vehicleType h) vehicleType) history in
  if (length relevantRides =? 0)%nat then 0.5
  else
    let avgRating :=
      fold_left (fun sum r => sum + h_rating r) relevantRides 0
      / of_length (length relevantRides) in
    avgRating / 5.

Definition inferPriceSensitivity (price : float) (history : list RideHistory)
    : float :=
  if (length history =? 0)%nat then 0.5
  else
    let avgPrice :=
      fold_left (fun sum h => sum + h_price h) history 0
      / of_length (length history) in
    let priceDiff := Math_abs (price - avgPrice) / avgPrice in
    Math_max 0 (1 - priceDiff).

Definition predictDriverCompatibility (driver : Driver)
    (userProfile : UserProfile) : float :=
  let score := 0 in
  let score := score + (d_rating driver / 5) * 40 in
  let experienceScore := Math_min 1 (totalRides driver / 100) * 30 in
  let score := score + experienceScore in
  if bool_decide (conversationLevel (d_preferences driver)
                  = conversationPreference (preferences userProfile))
  then score + 30
  else score + 15.

Definition calculateProximityPreference (currentLocation pickupLocation : Location)
    (history : list RideHistory) : float :=
  let distance := haversineDistance currentLocation pickupLocation in
  if (length history =? 0)%nat then Math_max 0 (1 - distance / 5)
  else
    let avgPickupDistance :=
      fold_left (fun sum h => sum + haversineDistance (h_pickup h) currentLocation)
        history 0
      / of_length (length history) in
    let similarityToHistory :=
      1 - Math_abs (distance - avgPickupDistance) / 5 in
    Math_max 0 similarityToHistory.

Definition calculateUserSimilarity (σ : store) (user1 user2 : UserProfile)
    : float :=
  let score := 0 in
  let types1 := deref σ (preferredVehicleTypes (preferences user1)) in
  let types2 := deref σ (preferredVehicleTypes (preferences user2)) in
  let commonVehicles := length (List.filter (includes types2) types1) in
  let score :=
    score + (of_length commonVehicles / Math_max (of_length (length types1)) 1) * 0.3 in
  let priceDiff :=
    Math_abs (maxPrice (preferences user1) - maxPrice (preferences user2)) in
  let score :=
    score + Math_max 0 (1 - priceDiff / maxPrice (preferences user1)) * 0.3 in
  let score :=
    if Bool.eqb (smokingPreference (preferences user1))
                (smokingPreference (preferences user2))
    then score + 0.2 else score in
  let score :=
    if bool_decide (conversationPreference (preferences user1)
                    = conversationPreference (preferences user2))
    then score + 0.2 else score in
  score.

Record SimilarUser := mkSimilarUser { user : UserProfile; similarity : float }.

Definition findSimilarUsers (σ : store) (userProfile : UserProfile)
    (allUsers : list UserProfile) : list SimilarUser :=
  let candidates :=
    List.filter (fun u =>
      negb (String.eqb (u_id u) (u_id userProfile)) &&
      (0 <? length (rideHistory u))%nat) allUsers in
  let scored :=
    map (fun user => mkSimilarUser user (calculateUserSimilarity σ userProfile user))
      candidates in
  let similar := List.filter (fun su => 0.5 <? similarity su) scored in
  let sorted := sort (fun a b => similarity b - similarity a) similar in
  firstn 10 sorted.

(** ** Inductive scoring *)
Definition inductiveScoring (currentHour : Z) (ride : Ride)
    (userProfile : UserProfile) (userLocation destination : Location) : float :=
  let score := 0 in
  let routeSimilarityScore :=
    calculateRouteSimilarity
      (mkLocation (pickup_lat ride) (pickup_lng ride))
      (mkLocation (dropoff_lat ride) (dropoff_lng ride))
      (rideHistory userProfile) in
  let score := score + routeSimilarityScore * 30 in
  let timePreferenceScore :=
    calculateTimePreference currentHour (vehicle_type ride)
      (rideHistory userProfile) in
  let score := score + timePreferenceScore * 20 in
  let pricePattern := inferPriceSensitivity (price ride) (rideHistory userProfile) in
  let score := score + pricePattern * 15 in
  let driverCompatibilityScore :=
    predictDriverCompatibility (driver ride) userProfile in
  let score := score + driverCompatibilityScore * 25 in
  let proximityScore :=
    calculateProximityPreference userLocation
      (mkLocation (pickup_lat ride) (pickup_lng ride))
      (rideHistory userProfile) in
  let score := score + proximityScore * 10 in
  Math_min 100 (Math_max 0 score).

(** ** Collaborative filtering *)
Definition likedSimilarRide (ride : Ride) (history : RideHistory) : bool :=
  String.eqb (h_vehicleType history) (vehicle_type ride) &&
  (4 <=? h_rating history) &&
  (Math_abs (h_price history - price ride) <? price ride * 0.2).

Definition collaborativeFiltering (σ : store) (ride : Ride)
    (userProfile : UserProfile) (allUsers : list UserProfile) : float :=
  let similarUsers := findSimilarUsers σ userProfile allUsers in
  if (length similarUsers =? 0)%nat then 50
  else
    let '(totalScore, weightSum) :=
      fold_left (fun '(totalScore, weightSum) su =>
        let userLikedSimilarRides :=
          length (List.filter (likedSimilarRide ride) (rideHistory (user su))) in
        let likeScore :=
          (of_length userLikedSimilarRides
           / of_length (length (rideHistory (user su)))) * 100 in
        (totalScore + likeScore * similarity su, weightSum + similarity su))
        similarUsers (0, 0) in
    if 0 <? weightSum then totalScore / weightSum else 50.

(** ** Content-based filtering *)
Definition contentBasedFiltering (ride : Ride) (userProfile : UserProfile)
    : float :=
  if (length (rideHistory userProfile) =? 0)%nat then 50
  else
    let score := 0 in
    let w_vehicleType := 0.3 in
    let w_priceRange := 0.25 in
    let w_distance := 0.2 in
    let w_rating := 0.25 in
    let vehicleTypeMatches :=
      length (List.filter (fun h =>
        String.eqb (h_vehicleType h) (vehicle_type ride) && (4 <=? h_rating h))
        (rideHistory userProfile)) in
    let score :=
      score + (of_length vehicleTypeMatches
               / of_length (length (rideHistory userProfile))) * 100 * w_vehicleType in
    let avgPrice :=
      fold_left (fun sum h => sum + h_price h) (rideHistory userProfile) 0
      / of_length (length (rideHistory userProfile)) in
    let priceDiff := Math_abs (price ride - avgPrice) / avgPrice in
    let score := score + Math_max 0 ((1 - priceDiff) * 100) * w_priceRange in
    let avgDistance :=
      fold_left (fun sum h =>
        let dist := haversineDistance (h_pickup h) (h_dropoff h) in
        sum + dist) (rideHistory userProfile) 0
      / of_length (length (rideHistory userProfile)) in
    let distDiff := Math_abs (distance_km ride - avgDistance) / avgDistance in
    let score := score + Math_max 0 ((1 - distDiff) * 100) * w_distance in
    let avgPreferredRating :=
      fold_left (fun a b => a + b) (ratings userProfile) 0
      / of_length (length (ratings userProfile)) in
    let ratingAlignment := (d_rating (driver ride) / avgPreferredRating) * 100 in
    let score := score + Math_min 100 ratingAlignment * w_rating in
    Math_min 100 score.

(** ** Hybrid recommendation *)
Inductive ReasoningLine :=
| PatternAnalysis (score : NumberString)
| PersonalHistoryMatch (score : NumberString)
| SimilarUsersPreference (score : NumberString)
| HighlyRecommended
| GoodMatch
| AverageMatch.

Record Recommendation := mkRecommendation {
  rec_ride : Ride;
  recommendationScore : float;
  reasoning : list ReasoningLine
}.

(** The callback of [filteredRides.map]. *)
Definition scoreRide (σ : store) (currentHour : Z) (userProfile : UserProfile)
    (userLocation destination : Location) (allUsers : option (list UserProfile))
    (ride : Ride) : Recommendation :=
  let reasoning := [] in
  let inductiveScore :=
    inductiveScoring currentHour ride userProfile userLocation destination in
  let reasoning := reasoning ++ [PatternAnalysis (toFixed inductiveScore 1)] in
  let contentScore := contentBasedFiltering ride userProfile in
  let reasoning := reasoning ++ [PersonalHistoryMatch (toFixed contentScore 1)] in
  let collaborativeScore := 50 in
  let '(collaborativeScore, reasoning) :=
    match allUsers with
    | Some (_ :: _ as users) =>
        let collaborativeScore := collaborativeFiltering σ ride userProfile users in
        (collaborativeScore,
         reasoning ++ [SimilarUsersPreference (toFixed collaborativeScore 1)])
    | _ => (collaborativeScore, reasoning)
    end in
  let finalScore :=
    inductiveScore * 0.4 + contentScore * 0.35 + collaborativeScore * 0.25 in
  let reasoning :=
    if 80 <=? finalScore then reasoning ++ [HighlyRecommended]
    else if 60 <=? finalScore then reasoning ++ [GoodMatch]
    else reasoning ++ [AverageMatch] in
  mkRecommendation ride finalScore reasoning.

Definition hybridRecommendation (σ : store) (currentHour : Z)
    (rides : list Ride) (userProfile : UserProfile)
    (userLocation destination : Location)
    (allUsers : option (list UserProfile)) : list Recommendation :=
  let filteredRides :=
    deductiveFiltering σ rides userProfile userLocation destination in
  let scoredRides :=
    map (scoreRide σ currentHour userProfile userLocation destination allUsers)
      filteredRides in
  sort (fun a b => recommendationScore b - recommendationScore a) scoredRides.

End Recommendations.

(** ** Real-time learning

    [now1], [now2] and [now3] are the three [new Date()] the source takes.
    The result is the store after the call and the profile returned. *)
Definition updateUserProfile (σ : store) (now1 now2 now3 : Date)
    (userProfile : UserProfile) (ride : Ride) (rating : float) (accepted : bool)
    : store * UserProfile :=
  let newHistory :=
    mkRideHistory
      (mkLocation (pickup_lat ride) (pickup_lng ride))
      (mkLocation (dropoff_lat ride) (dropoff_lng ride))
      now1
      (price ride)
      (vehicle_type ride)
      rating
      (getTimeOfDay (getHours now2))
      (getDay now3) in
  let types := preferredVehicleTypes (preferences userProfile) in
  let σ' :=
    if accepted && (4 <=? rating) then
      if negb (includes (deref σ types) (vehicle_type ride))
      then <[ types := deref σ types ++ [vehicle_type ride] ]> σ
      else σ
    else σ in
  (σ',
   mkUserProfile
     (u_id userProfile)
     (rideHistory userProfile ++ [newHistory])
     (preferences userProfile)
     (ratings userProfile ++ [rating])
     (frequentLocations userProfile)).

(* ################################################################# *)
(** * algorithms/astar.ts, continued, and services/rideService.ts *)

Section Matching.
Variable M : MathLib.

Record Nearby := mkNearby { n_ride : Ride; n_distance : float }.

Definition findNearbyRides (userLocation : Location) (rides : list Ride)
    (maxDistanceKm : float) : list Nearby :=
  let nearbyRides :=
    sort (fun a b => n_distance a - n_distance b)
      (List.filter (fun item => n_distance item <=? maxDistanceKm)
         (map (fun ride =>
            mkNearby ride
              (haversineDistance M userLocation
                 (mkLocation (pickup_lat ride) (pickup_lng ride))))
            rides)) in
  nearbyRides.

Record Match := mkMatch {
  m_ride : Ride;
  pickupDistance : float;
  dropoffDistance : float;
  matchScore : float
}.

(** The callback of [ridesWithinPickupRange.map]; the path search may
    exceed [fuel]. *)
Definition matchRide (fuel : nat) (userLocation destination : Location)
    (item : Nearby) : option Match :=
  let ride := n_ride item in
  let distance := n_distance item in
  let dropoffDistance :=
    haversineDistance M destination
      (mkLocation (dropoff_lat ride) (dropoff_lng ride)) in
  route ← astarPathfinding M fuel userLocation destination [];
  let routeDeviation := Math_abs (totalDistance route - distance_km ride) in
  let matchScore :=
    100 - (distance * 10 + dropoffDistance * 5 + routeDeviation * 3) in
  Some (mkMatch ride distance dropoffDistance (Math_max 0 matchScore)).

(** [availableRides] is what [getAvailableRides()] resolved to. *)
Definition findMatchingRides (fuel : nat) (availableRides : list Ride)
    (userLocation destination : Location) (maxDistanceKm : float)
    : option (list Match) :=
  let ridesWithinPickupRange :=
    findNearbyRides userLocation availableRides maxDistanceKm in
  matchedRides ← mapM (matchRide fuel userLocation destination)
                    ridesWithinPickupRange;
  Some (sort (fun a b => matchScore b - matchScore a)
          (List.filter (fun m => 30 <? matchScore m) matchedRides)).

End Matching.

(* ################################################################# *)
(** * Facts about the runtime *)

Module FloatFacts.

Lemma float_of_SF (x y : float) : Prim2SF x = Prim2SF y -> x = y.
Proof.
  intros H. rewrite <- (SF2Prim_Prim2SF x), <- (SF2Prim_Prim2SF y). now rewrite H.
Qed.

Lemma add_nan_r (x : float) : x + nan = nan.
Proof.
  apply float_of_SF. rewrite FloatAxioms.add_spec.
  change (Prim2SF nan) with S754_nan. now destruct (Prim2SF x).
Qed.

Lemma add_nan_l (x : float) : nan + x = nan.
Proof.
  apply float_of_SF. rewrite FloatAxioms.add_spec.
  change (Prim2SF nan) with S754_nan. reflexivity.
Qed.

Lemma sub_nan_r (x : float) : x - nan = nan.
Proof.
  apply float_of_SF. rewrite FloatAxioms.sub_spec.
  change (Prim2SF nan) with S754_nan. now destruct (Prim2SF x).
Qed.

Lemma sub_nan_l (x : float) : nan - x = nan.
Proof.
  apply float_of_SF. rewrite FloatAxioms.sub_spec.
  change (Prim2SF nan) with S754_nan. reflexivity.
Qed.

Lemma mul_nan_r (x : float) : x * nan = nan.
Proof.
  apply float_of_SF. rewrite FloatAxioms.mul_spec.
  change (Prim2SF nan) with S754_nan. now destruct (Prim2SF x).
Qed.

Lemma mul_nan_l (x : float) : nan * x = nan.
Proof.
  apply float_of_SF. rewrite FloatAxioms.mul_spec.
  change (Prim2SF nan) with S754_nan. reflexivity.
Qed.

Lemma div_nan_r (x : float) : x / nan = nan.
Proof.
  apply float_of_SF. rewrite FloatAxioms.div_spec.
  change (Prim2SF nan) with S754_nan. now destruct (Prim2SF x).
Qed.


Lemma ltb_nan_r (x : float) : (x <? nan) = false.
Proof.
  rewrite FloatAxioms.ltb_spec. change (Prim2SF nan) with S754_nan.
  now destruct (Prim2SF x).
Qed.

(** The result of rounding carries the sign it was given. *)
Lemma binary_round_aux_neg (m e : Z) (l : SpecFloat.location) :
  SFltb (S754_zero false) (binary_round_aux prec emax true m e l) = false.
Proof.
  unfold binary_round_aux.
  destruct (shr_fexp prec emax m e l) as [mrs' e'].
  destruct (shr_fexp prec emax _ e' loc_Exact) as [mrs'' e''].
  destruct (shr_m mrs''); try reflexivity.
  destruct (e'' <=? emax - prec)%Z; reflexivity.
Qed.

Lemma binary_normalize_nonpos (m e : Z) :
  (m <= 0)%Z ->
  SFltb (S754_zero false) (binary_normalize prec emax m e false) = false.
Proof.
  destruct m as [|p|p]; intros Hm; try reflexivity; try lia.
  unfold binary_normalize, binary_round.
  destruct (shl_align _ _ _). apply binary_round_aux_neg.
Qed.

(** If [x - y] is positive then [y - x] is not. *)
Lemma sub_pos_asym (x y : float) : (0 <? x - y) = true -> (0 <? y - x) = false.
Proof.
  rewrite !FloatAxioms.ltb_spec, !FloatAxioms.sub_spec.
  change (Prim2SF 0) with (S754_zero false).
  destruct (Prim2SF x) as [sx|sx| |sx mx ex], (Prim2SF y) as [sy|sy| |sy my ey];
    try (destruct sx); try (destruct sy); try discriminate; try reflexivity.
  all: unfold SF64sub, SFsub.
  all: rewrite (Z.min_comm ey ex).
  all: set (a := Z.pos (fst (shl_align mx ex (Z.min ex ey)))).
  all: set (b := Z.pos (fst (shl_align my ey (Z.min ex ey)))).
  all: unfold cond_Zopp; intros H.
  all: apply binary_normalize_nonpos.
  all: match type of H with
       | SFltb _ (binary_normalize _ _ ?d _ _) = true =>
           destruct (Z_le_gt_dec d 0) as [Hd|Hd];
           [ rewrite (binary_normalize_nonpos d _ Hd) in H; discriminate | lia ]
       end.
Qed.

End FloatFacts.

Module SortFacts.
Section Generic.
Context {A : Type} (cmp : A -> A -> float).

Lemma sort_insert_perm (x : A) (l : list A) :
  Permutation (sort_insert cmp x l) (x :: l).
Proof.
  induction l as [|y l IH]; simpl; [reflexivity|].
  destruct (0 <? cmp x y); [|reflexivity].
  rewrite IH. apply perm_swap.
Qed.

Lemma sort_perm (l : list A) : Permutation (sort cmp l) l.
Proof.
  induction l as [|x l IH]; simpl; [reflexivity|].
  rewrite sort_insert_perm. now constructor.
Qed.

Lemma sort_In (x : A) (l : list A) : In x (sort cmp l) <-> In x l.
Proof.
  split; apply Permutation_in; [|symmetry]; apply sort_perm.
Qed.

Lemma sort_length (l : list A) : length (sort cmp l) = length l.
Proof. apply Permutation_length, sort_perm. Qed.

Lemma sort_Forall (P : A -> Prop) (l : list A) :
  Forall P l -> Forall P (sort cmp l).
Proof.
  intros H. eapply Permutation_Forall; [symmetry; apply sort_perm|exact H].
Qed.

Lemma sort_nonempty (l : list A) : l <> [] -> sort cmp l <> [].
Proof.
  intros Hl Hs. apply Hl. apply length_zero_iff_nil.
  rewrite <- sort_length, Hs. reflexivity.
Qed.

(** [a] may stand before [b]: the comparator does not send it behind. *)
Definition inOrder (a b : A) : Prop := (0 <? cmp a b) = false.

Hypothesis cmp_asym : forall a b, (0 <? cmp a b) = true -> (0 <? cmp b a) = false.

Lemma sort_insert_sorted (x : A) (l : list A) :
  Sorted inOrder l -> Sorted inOrder (sort_insert cmp x l).
Proof.
  induction l as [|y l IH]; simpl; intros Hs.
  - repeat constructor.
  - destruct (0 <? cmp x y) eqn:Hxy.
    + inversion Hs as [|? ? Hl Hhd]; subst.
      constructor; [now apply IH|].
      destruct l as [|z l]; simpl.
      * constructor. now apply cmp_asym.
      * destruct (0 <? cmp x z); constructor.
        -- now inversion Hhd.
        -- now apply cmp_asym.
    + constructor; [exact Hs|]. constructor. exact Hxy.
Qed.

Lemma sort_sorted (l : list A) : Sorted inOrder (sort cmp l).
Proof.
  induction l as [|x l IH]; simpl; [constructor|].
  now apply sort_insert_sorted.
Qed.
End Generic.

(** Sorting on a numeric key, ascending ([key a - key b]) or descending
    ([key b - key a]), meets the asymmetry [sort_sorted] asks for. *)
Lemma sort_descending_sorted {A : Type} (key : A -> float) (l : list A) :
  Sorted (fun a b => (0 <? key b - key a) = false)
    (sort (fun a b => key b - key a) l).
Proof.
  apply (sort_sorted (fun a b => key b - key a)).
  intros a b. apply FloatFacts.sub_pos_asym.
Qed.
End SortFacts.

(* ################################################################# *)
(** * Pricing *)






(** The decimal [toFixed] prints is within half a unit of its last place
    of the number printed: with [x = m * 2^e], the integer [n] it prints
    has [|n - x * 10^digits| <= 1/2]. *)
Lemma nearest_scaled_close (m : positive) (e : Z) (digits : nat) :
  let n := Z.of_N (nearest_scaled m e digits) in
  let q := (Z.pos m * 10 ^ Z.of_nat digits)%Z in
  match e with
  | Zneg k => (2 * Z.abs (n * 2 ^ Z.pos k - q) <= 2 ^ Z.pos k)%Z
  | _ => (n = q * 2 ^ e)%Z
  end.
Proof.
  unfold nearest_scaled.
  assert (Hq : (0 < Z.pos m * 10 ^ Z.of_nat digits)%Z).
  { apply Z.mul_pos_pos; [lia|]. apply Z.pow_pos_nonneg; lia. }
  destruct e as [|p|k]; cbv zeta.
  - rewrite Z2N.id by lia. cbn. lia.
  - rewrite Z2N.id; [reflexivity|].
    apply Z.mul_nonneg_nonneg; [lia|]. apply Z.pow_nonneg; lia.
  - set (q := (Z.pos m * 10 ^ Z.of_nat digits)%Z) in *.
    set (d := (2 ^ Z.pos k)%Z).
    assert (Hd : (0 < d)%Z) by (apply Z.pow_pos_nonneg; lia).
    assert (Hhalf : (2 * 2 ^ (Z.pos k - 1) = d)%Z).
    { unfold d. rewrite <- Z.pow_succ_r by lia. f_equal. lia. }
    set (hf := (2 ^ (Z.pos k - 1))%Z) in *.
    assert (Hhf : (0 <= hf)%Z) by (apply Z.pow_nonneg; lia).
    rewrite Z2N.id by (apply Z.div_pos; lia).
    pose proof (Z.div_mod (q + hf) d ltac:(lia)) as Hdm.
    pose proof (Z.mod_pos_bound (q + hf) d Hd) as Hb.
    nia.
Qed.


(* ################################################################# *)
(** * The recommendation pipeline *)

Section PipelineFacts.
Variable M : MathLib.

Lemma includes_In (l : list string) (v : string) :
  includes l v = true <-> In v l.
Proof.
  unfold includes. rewrite existsb_exists. split.
  - intros (x & Hx & Heq). apply String.eqb_eq in Heq. now subst.
  - intros H. exists v. split; [exact H|apply String.eqb_refl].
Qed.

Lemma filter_none {A : Type} (p : A -> bool) (l : list A) :
  Forall (fun x => p x = false) l -> List.filter p l = [].
Proof.
  induction 1 as [|x l Hx _ IH]; simpl; [reflexivity|]. now rewrite Hx.
Qed.

Lemma firstn_incl {A : Type} (n : nat) (l : list A) (x : A) :
  In x (firstn n l) -> In x l.
Proof.
  intros H. rewrite <- (firstn_skipn n l). apply in_or_app. now left.
Qed.

(** ** Content-based and inductive scoring on sparse data *)

Lemma contentBasedFiltering_no_ratings (ride : Ride) (uid : string)
    (h : RideHistory) (hs : list RideHistory) (prefs : UserPreferences)
    (freq : list Location) :
  contentBasedFiltering M ride (mkUserProfile uid (h :: hs) prefs [] freq) = nan.
Proof.
  unfold contentBasedFiltering.
  cbn [rideHistory ratings length Nat.eqb fold_left].
  change (0 / of_length 0) with nan.
  rewrite FloatFacts.div_nan_r.
  change (Math_min 100 (nan * 100) * 0.25) with nan.
  rewrite FloatFacts.add_nan_r. reflexivity.
Qed.

Lemma inferPriceSensitivity_zero_prices (pk dp : Location) (ts : Date)
    (vt : string) (r : float) (tod : TimeOfDay) (dow : Z) :
  inferPriceSensitivity 0 [mkRideHistory pk dp ts 0 vt r tod dow] = nan.
Proof. reflexivity. Qed.

Lemma inductiveScoring_zero_prices (currentHour : Z) (rid : string)
    (drv : Driver) (plat plng dlat dlng : float) (rvt : string)
    (dist dur : float) (uid : string) (prefs : UserPreferences)
    (rts : list float) (freq : list Location)
    (pk dp : Location) (ts : Date) (vt : string) (r : float)
    (tod : TimeOfDay) (dow : Z) (userLocation destination : Location) :
  inductiveScoring M currentHour
    (mkRide rid drv plat plng dlat dlng 0 rvt dist dur)
    (mkUserProfile uid [mkRideHistory pk dp ts 0 vt r tod dow] prefs rts freq)
    userLocation destination = nan.
Proof.
  unfold inductiveScoring. cbn [price rideHistory].
  rewrite inferPriceSensitivity_zero_prices.
  change (nan * 15) with nan.
  rewrite FloatFacts.add_nan_r, !FloatFacts.add_nan_l. reflexivity.
Qed.

(** ** Similar users *)

Lemma findSimilarUsers_nil (σ : store) (userProfile : UserProfile) :
  findSimilarUsers σ userProfile [] = [].
Proof. reflexivity. Qed.

Lemma findSimilarUsers_none_similar (σ : store) (userProfile : UserProfile)
    (allUsers : list UserProfile) :
  Forall (fun u => (0.5 <? calculateUserSimilarity σ userProfile u) = false)
    allUsers ->
  findSimilarUsers σ userProfile allUsers = [].
Proof.
  intros Hall. unfold findSimilarUsers.
  rewrite filter_none; [reflexivity|].
  apply List.Forall_forall. intros su Hsu.
  apply in_map_iff in Hsu as (u & <- & Hu).
  apply filter_In in Hu as [Hu _]. cbn [similarity].
  rewrite List.Forall_forall in Hall. now apply Hall.
Qed.

Lemma collaborativeFiltering_no_similar (σ : store) (ride : Ride)
    (userProfile : UserProfile) (allUsers : list UserProfile) :
  findSimilarUsers σ userProfile allUsers = [] ->
  collaborativeFiltering σ ride userProfile allUsers = 50.
Proof. unfold collaborativeFiltering. now intros ->. Qed.

Lemma findSimilarUsers_In (σ : store) (userProfile : UserProfile)
    (allUsers : list UserProfile) (su : SimilarUser) :
  In su (findSimilarUsers σ userProfile allUsers) ->
  In (user su) allUsers
  /\ u_id (user su) <> u_id userProfile
  /\ rideHistory (user su) <> []
  /\ similarity su = calculateUserSimilarity σ userProfile (user su)
  /\ (0.5 <? similarity su) = true.
Proof.
  unfold findSimilarUsers. intros H.
  apply firstn_incl, SortFacts.sort_In in H.
  apply filter_In in H as [H Hsim].
  apply in_map_iff in H as (u & <- & Hu).
  apply filter_In in Hu as [Hu Hc].
  apply andb_true_iff in Hc as [Hid Hlen]. cbn [user similarity] in *.
  repeat split; try assumption.
  - apply negb_true_iff, String.eqb_neq in Hid. exact Hid.
  - apply Nat.ltb_lt in Hlen. destruct (rideHistory u); [simpl in Hlen; lia|discriminate].
Qed.

(** ** The hybrid combiner *)

Lemma scoreRide_no_peers (σ : store) (currentHour : Z)
    (userProfile : UserProfile) (userLocation destination : Location)
    (allUsers : option (list UserProfile)) (ride : Ride) :
  allUsers = None \/ allUsers = Some [] ->
  let r := scoreRide M σ currentHour userProfile userLocation destination
             allUsers ride in
  rec_ride r = ride /\
  recommendationScore r
  = inductiveScoring M currentHour ride userProfile userLocation destination * 0.4
    + contentBasedFiltering M ride userProfile * 0.35
    + 50 * 0.25.
Proof.
  intros [-> | ->]; unfold scoreRide; cbv zeta; split; reflexivity.
Qed.

Lemma hybridRecommendation_In (σ : store) (currentHour : Z)
    (rides : list Ride) (userProfile : UserProfile)
    (userLocation destination : Location)
    (allUsers : option (list UserProfile)) (r : Recommendation) :
  In r (hybridRecommendation M σ currentHour rides userProfile userLocation
          destination allUsers) <->
  exists ride,
    In ride (deductiveFiltering M σ rides userProfile userLocation destination)
    /\ r = scoreRide M σ currentHour userProfile userLocation destination
             allUsers ride.
Proof.
  unfold hybridRecommendation. rewrite SortFacts.sort_In, in_map_iff.
  split; intros (ride & H1 & H2); exists ride; split; auto.
Qed.

Lemma hybridRecommendation_length (σ : store) (currentHour : Z)
    (rides : list Ride) (userProfile : UserProfile)
    (userLocation destination : Location)
    (allUsers : option (list UserProfile)) :
  length (hybridRecommendation M σ currentHour rides userProfile userLocation
            destination allUsers)
  = length (deductiveFiltering M σ rides userProfile userLocation destination).
Proof.
  unfold hybridRecommendation. now rewrite SortFacts.sort_length, length_map.
Qed.

(** ** The deductive filter *)

(** The five hard rules, as the specification lists them. *)
Definition priceTooHigh (userProfile : UserProfile) (ride : Ride) : Prop :=
  (maxPrice (preferences userProfile) <? price ride) = true.
Definition driverRatedTooLow (userProfile : UserProfile) (ride : Ride) : Prop :=
  (d_rating (driver ride) <? preferredDriverRatings (preferences userProfile)) = true.
Definition vehicleClassExcluded (σ : store) (userProfile : UserProfile)
    (ride : Ride) : Prop :=
  deref σ (preferredVehicleTypes (preferences userProfile)) <> []
  /\ ~ In (vehicle_type ride)
         (deref σ (preferredVehicleTypes (preferences userProfile))).
Definition smokingMismatch (userProfile : UserProfile) (ride : Ride) : Prop :=
  smokingPreference (preferences userProfile)
  <> smokingAllowed (d_preferences (driver ride)).
Definition pickupTooFar (userLocation : Location) (ride : Ride) : Prop :=
  (5 <? haversineDistance M userLocation
          (mkLocation (pickup_lat ride) (pickup_lng ride))) = true.

Definition eliminated (σ : store) (userProfile : UserProfile)
    (userLocation : Location) (ride : Ride) : Prop :=
  priceTooHigh userProfile ride
  \/ driverRatedTooLow userProfile ride
  \/ vehicleClassExcluded σ userProfile ride
  \/ smokingMismatch userProfile ride
  \/ pickupTooFar userLocation ride.

Lemma passesRules_iff (σ : store) (userProfile : UserProfile)
    (userLocation : Location) (ride : Ride) :
  passesRules M σ userProfile userLocation ride = true
  <-> ~ eliminated σ userProfile userLocation ride.
Proof.
  unfold passesRules, eliminated, priceTooHigh, driverRatedTooLow,
    vehicleClassExcluded, smokingMismatch, pickupTooFar.
  set (types := deref σ (preferredVehicleTypes (preferences userProfile))).
  destruct (maxPrice (preferences userProfile) <? price ride);
    [split; [discriminate|intros H; exfalso; apply H; auto]|].
  destruct (d_rating (driver ride) <? preferredDriverRatings (preferences userProfile));
    [split; [discriminate|intros H; exfalso; apply H; auto]|].
  assert (Hty : (0 <? length types)%nat && negb (includes types (vehicle_type ride)) = true
                <-> types <> [] /\ ~ In (vehicle_type ride) types).
  { rewrite andb_true_iff, negb_true_iff, Nat.ltb_lt, <- includes_In.
    destruct types; simpl length; split; intros [H1 H2]; split;
      try lia; try congruence; try (now destruct (includes _ _)). }
  destruct ((0 <? length types)%nat && negb (includes types (vehicle_type ride)));
    [split; [discriminate|intros H; exfalso; apply H; right; right; left; now apply Hty]|].
  destruct (smokingPreference (preferences userProfile)),
    (smokingAllowed (d_preferences (driver ride))); cbn [Bool.eqb negb];
    try (split; [discriminate|intros H; exfalso; apply H; right; right; right; left; discriminate]).
  all: destruct (5 <? _);
    [split; [discriminate|intros H; exfalso; apply H; repeat right; reflexivity]|].
  all: split; [intros _|reflexivity].
  all: intros [H|[H|[H|[H|H]]]]; try discriminate; try (now apply H);
    try (destruct Hty as [_ Hty]; specialize (Hty H); discriminate).
Qed.

End PipelineFacts.

(** Concrete riders, drivers and rides to run the pipeline on. *)
Module Sample.
Definition σ0 : store :=
  <[ 1%nat := ["economy"%string] ]>
    (<[ 2%nat := ["economy"%string; "comfort"%string] ]> ∅).
Definition here : Location := mkLocation 0 0.
Definition there : Location := mkLocation 0.02 0.02.
Definition wednesdayNoon : Date := mkDate 0 12 3.
Definition trip (price : float) (vehicleType : string) (rating : float)
    : RideHistory :=
  mkRideHistory here there wednesdayNoon price vehicleType rating afternoon 3.
Definition prefs (types : ref) (maxPrice minRating : float) : UserPreferences :=
  mkUserPreferences types maxPrice minRating false true moderate.
Definition rider : UserProfile :=
  mkUserProfile "rider" [trip 10 "economy" 5] (prefs 1%nat 20 4.5) [5] [].
Definition peer : UserProfile :=
  mkUserProfile "peer" [trip 10 "economy" 5] (prefs 2%nat 20 4.5) [5] [].
Definition stranger : UserProfile :=
  mkUserProfile "stranger" [trip 90 "premium" 2]
    (mkUserPreferences 3%nat 500 3 true false chatty) [2] [].
Definition aDriver (rating : float) : Driver :=
  mkDriver "driver" rating 120 "economy"
    (mkDriverPreferences false true moderate) [].
Definition aRide (id : string) (price rating : float) : Ride :=
  mkRide id (aDriver rating) 0 0 0.02 0.02 price "economy" 3 5.
Definition rides : list Ride :=
  [aRide "a" 25 5; aRide "b" 15 4; aRide "c" 15 5].
End Sample.

(** C1: the scoring stages are not total on sparse data.  With a non-empty
    ride history and an empty ratings list [contentBasedFiltering] returns
    NaN, whatever the ride and the history; and with a history whose
    only price is zero [inductiveScoring] returns NaN for a ride priced
    zero. *)
Theorem scoring_stages_yield_nan :
  (forall (M : MathLib) (ride : Ride) (uid : string) (h : RideHistory)
      (hs : list RideHistory) (prefs : UserPreferences) (freq : list Location),
      contentBasedFiltering M ride (mkUserProfile uid (h :: hs) prefs [] freq) = nan)
  /\
  (forall (M : MathLib) (currentHour : Z) (rid : string) (drv : Driver)
      (plat plng dlat dlng : float) (rvt : string) (dist dur : float)
      (uid : string) (prefs : UserPreferences) (rts : list float)
      (freq : list Location) (pk dp : Location) (ts : Date) (vt : string)
      (r : float) (tod : TimeOfDay) (dow : Z) (userLocation destination : Location),
      inductiveScoring M currentHour
        (mkRide rid drv plat plng dlat dlng 0 rvt dist dur)
        (mkUserProfile uid [mkRideHistory pk dp ts 0 vt r tod dow] prefs rts freq)
        userLocation destination = nan).
Proof.
  split; intros.
  - apply contentBasedFiltering_no_ratings.
  - apply inductiveScoring_zero_prices.
Qed.

(** C5: [collaborativeFiltering] is exactly 50 when the peer list is empty
    and when no peer passes the similarity threshold, and
    [hybridRecommendation] scores every candidate with the neutral
    collaborative score 50 when no peers are supplied; every candidate that
    passed the filter is still returned. *)
Theorem collaborative_neutral_score (M : MathLib) (σ : store)
    (userProfile : UserProfile) :
  (forall ride, collaborativeFiltering σ ride userProfile [] = 50)
  /\ (forall ride allUsers,
        Forall (fun u => (0.5 <? calculateUserSimilarity σ userProfile u) = false)
          allUsers ->
        collaborativeFiltering σ ride userProfile allUsers = 50)
  /\ (forall ride allUsers,
        findSimilarUsers σ userProfile allUsers = [] ->
        collaborativeFiltering σ ride userProfile allUsers = 50)
  /\ (forall currentHour rides userLocation destination allUsers,
        allUsers = None \/ allUsers = Some [] ->
        let result :=
          hybridRecommendation M σ currentHour rides userProfile userLocation
            destination allUsers in
        length result
        = length (deductiveFiltering M σ rides userProfile userLocation destination)
        /\ forall r, In r result ->
             recommendationScore r
             = inductiveScoring M currentHour (rec_ride r) userProfile
                 userLocation destination * 0.4
               + contentBasedFiltering M (rec_ride r) userProfile * 0.35
               + 50 * 0.25).
Proof.
  repeat split.
  - intros ride allUsers Hall.
    now apply collaborativeFiltering_no_similar, findSimilarUsers_none_similar.
  - intros ride allUsers. apply collaborativeFiltering_no_similar.
  - apply hybridRecommendation_length.
  - intros r Hr. apply hybridRecommendation_In in Hr as (ride & _ & ->).
    destruct (scoreRide_no_peers M σ currentHour userProfile userLocation
                destination allUsers ride H) as [-> ->].
    reflexivity.
Qed.

Lemma collaborative_neutral_score_witness :
  collaborativeFiltering Sample.σ0 (Sample.aRide "c" 15 5) Sample.rider
    [Sample.stranger] = 50
  /\ map recommendationScore
       (hybridRecommendation refMath Sample.σ0 12 Sample.rides Sample.rider
          Sample.here Sample.there (Some []))
     = map recommendationScore
         (hybridRecommendation refMath Sample.σ0 12 Sample.rides Sample.rider
            Sample.here Sample.there None)
  /\ forall r,
       In r (hybridRecommendation refMath Sample.σ0 12 Sample.rides Sample.rider
               Sample.here Sample.there None) ->
       recommendationScore r
       = inductiveScoring refMath 12 (rec_ride r) Sample.rider Sample.here
           Sample.there * 0.4
         + contentBasedFiltering refMath (rec_ride r) Sample.rider * 0.35
         + 50 * 0.25.
Proof.
  destruct (collaborative_neutral_score refMath Sample.σ0 Sample.rider)
    as (_ & Hnone & _ & Hhybrid).
  split; [|split].
  - apply Hnone. repeat constructor.
  - reflexivity.
  - apply (Hhybrid 12%Z Sample.rides Sample.here Sample.there None). now left.
Defined.

(** C6: [deductiveFiltering] keeps a ride exactly when none of the five
    hard rules holds: price above [maxPrice], driver rated below the
    minimum, a non-empty preferred-class list that lacks the ride's class, a
    smoking preference different from the driver's, a pickup more than 5 km
    away.  With [maxPrice = 20] a ride priced 25 goes, and with a minimum
    rating of 4.5 a ride whose driver is rated 4.0 goes, whatever the
    other fields are. *)
Theorem deductiveFiltering_keeps_iff (M : MathLib) (σ : store)
    (rides : list Ride) (userProfile : UserProfile)
    (userLocation destination : Location) :
  let kept := deductiveFiltering M σ rides userProfile userLocation destination in
  (forall ride,
      In ride kept <->
      In ride rides /\ ~ eliminated M σ userProfile userLocation ride)
  /\ (forall ride,
        maxPrice (preferences userProfile) = 20 -> price ride = 25 ->
        ~ In ride kept)
  /\ (forall ride,
        preferredDriverRatings (preferences userProfile) = 4.5 ->
        d_rating (driver ride) = 4.0 ->
        ~ In ride kept).
Proof.
  cbv zeta.
  assert (Hiff : forall ride,
      In ride (deductiveFiltering M σ rides userProfile userLocation destination)
      <-> In ride rides /\ ~ eliminated M σ userProfile userLocation ride).
  { intros ride. unfold deductiveFiltering.
    rewrite filter_In, passesRules_iff. reflexivity. }
  split; [exact Hiff|]. split.
  - intros ride Hmax Hprice Hin. apply Hiff in Hin as [_ Hkeep].
    apply Hkeep. left. unfold priceTooHigh. now rewrite Hmax, Hprice.
  - intros ride Hmin Hrating Hin. apply Hiff in Hin as [_ Hkeep].
    apply Hkeep. right; left. unfold driverRatedTooLow. now rewrite Hmin, Hrating.
Qed.

Lemma deductiveFiltering_keeps_iff_witness :
  let kept :=
    deductiveFiltering refMath Sample.σ0 Sample.rides Sample.rider
      Sample.here Sample.there in
  ~ In (Sample.aRide "a" 25 5) kept
  /\ ~ In (Sample.aRide "b" 15 4) kept
  /\ ~ In (Sample.aRide "b" 25 4) kept
  /\ In (Sample.aRide "c" 15 5) kept.
Proof.
  destruct (deductiveFiltering_keeps_iff refMath Sample.σ0 Sample.rides
              Sample.rider Sample.here Sample.there) as (Hiff & Hprice & Hrating).
  cbv zeta. split; [|split; [|split]].
  - apply Hprice; reflexivity.
  - apply Hrating; reflexivity.
  - apply Hprice; reflexivity.
  - apply (proj2 (Hiff (Sample.aRide "c" 15 5))). split.
    + right; right; left. reflexivity.
    + apply passesRules_iff. vm_compute. reflexivity.
Defined.

(** C10: every peer [findSimilarUsers] returns has a non-empty ride
    history, an id other than the rider's and a similarity above 0.5, and
    there are at most ten of them; so the length [collaborativeFiltering]
    divides by is never zero. *)
Theorem findSimilarUsers_peers (σ : store) (userProfile : UserProfile)
    (allUsers : list UserProfile) :
  (length (findSimilarUsers σ userProfile allUsers) <= 10)%nat
  /\ Forall (fun su =>
       In (user su) allUsers
       /\ rideHistory (user su) <> []
       /\ u_id (user su) <> u_id userProfile
       /\ similarity su = calculateUserSimilarity σ userProfile (user su)
       /\ (0.5 <? similarity su) = true
       /\ length (rideHistory (user su)) <> 0%nat)
      (findSimilarUsers σ userProfile allUsers).
Proof.
  split.
  - unfold findSimilarUsers. apply firstn_le_length.
  - apply List.Forall_forall. intros su Hsu.
    apply findSimilarUsers_In in Hsu as (H1 & H2 & H3 & H4 & H5).
    repeat split; try assumption.
    now destruct (rideHistory (user su)).
Qed.

(* ################################################################# *)
(** * The profile learner *)

Lemma count_occ_includes (l : list string) (v : string) :
  includes l v = false -> count_occ string_dec l v = 0%nat.
Proof.
  intros H. apply count_occ_not_In. intros Hin.
  apply includes_In in Hin. congruence.
Qed.

Lemma includes_count_occ (l : list string) (v : string) :
  includes l v = true -> (1 <= count_occ string_dec l v)%nat.
Proof.
  intros H. apply includes_In in H.
  apply (count_occ_In string_dec) in H. lia.
Qed.

Section ProfileLearner.
Variables (σ : store) (now1 now2 now3 : Date).
Variables (userProfile : UserProfile) (ride : Ride).

Let types : ref := preferredVehicleTypes (preferences userProfile).

Lemma updateUserProfile_history (rating : float) (accepted : bool) :
  exists entry,
    rideHistory (snd (updateUserProfile σ now1 now2 now3 userProfile ride rating accepted))
    = rideHistory userProfile ++ [entry]
    /\ h_vehicleType entry = vehicle_type ride
    /\ h_rating entry = rating.
Proof. eexists. repeat split. Qed.

Lemma updateUserProfile_shares_preferences (rating : float) (accepted : bool) :
  preferences (snd (updateUserProfile σ now1 now2 now3 userProfile ride rating accepted))
  = preferences userProfile.
Proof. reflexivity. Qed.

(** The store after a call with positive feedback. *)
Lemma updateUserProfile_store_liked (rating : float) :
  (4 <=? rating) = true ->
  fst (updateUserProfile σ now1 now2 now3 userProfile ride rating true)
  = if includes (deref σ types) (vehicle_type ride) then σ
    else <[ types := deref σ types ++ [vehicle_type ride] ]> σ.
Proof.
  intros Hr. unfold updateUserProfile. cbn [fst andb]. rewrite Hr.
  fold types. now destruct (includes (deref σ types) (vehicle_type ride)).
Qed.

Lemma updateUserProfile_store_other (rating : float) (accepted : bool) :
  accepted && (4 <=? rating) = false ->
  fst (updateUserProfile σ now1 now2 now3 userProfile ride rating accepted) = σ.
Proof. intros H. unfold updateUserProfile. cbn [fst]. now rewrite H. Qed.

(** Arrays other than the profile's own are left alone. *)
Lemma updateUserProfile_frame (rating : float) (accepted : bool) (r : ref) :
  r <> types ->
  deref (fst (updateUserProfile σ now1 now2 now3 userProfile ride rating accepted)) r
  = deref σ r.
Proof.
  intros Hr. unfold updateUserProfile. cbn [fst]. fold types.
  destruct (accepted && (4 <=? rating)); [|reflexivity].
  destruct (negb (includes (deref σ types) (vehicle_type ride))); [|reflexivity].
  unfold deref. now rewrite lookup_total_insert_ne.
Qed.

(** A liked ride whose class is not yet preferred changes the array the
    caller's profile points to. *)
Lemma updateUserProfile_pushes (rating : float) :
  (4 <=? rating) = true ->
  ~ In (vehicle_type ride) (deref σ types) ->
  deref (fst (updateUserProfile σ now1 now2 now3 userProfile ride rating true)) types
  = deref σ types ++ [vehicle_type ride].
Proof.
  intros Hr Hnot. rewrite updateUserProfile_store_liked by exact Hr.
  destruct (includes (deref σ types) (vehicle_type ride)) eqn:Hinc.
  - apply includes_In in Hinc. contradiction.
  - unfold deref. now rewrite lookup_total_insert_eq.
Qed.

End ProfileLearner.

(** Two liked rides of one class, the second call on the profile the first
    returned ([again = false]) or on the caller's profile once more
    ([again = true]). *)
Lemma updateUserProfile_twice (σ : store) (now1 now2 now3 now1' now2' now3' : Date)
    (userProfile : UserProfile) (ride ride' : Ride) (again : bool) :
  vehicle_type ride' = vehicle_type ride ->
  let types := preferredVehicleTypes (preferences userProfile) in
  let first := updateUserProfile σ now1 now2 now3 userProfile ride 5 true in
  let second :=
    updateUserProfile (fst first) now1' now2' now3'
      (if again then userProfile else snd first) ride' 5 true in
  count_occ string_dec
    (deref (fst second) (preferredVehicleTypes (preferences (snd second))))
    (vehicle_type ride)
  = Nat.max 1 (count_occ string_dec (deref σ types) (vehicle_type ride)).
Proof.
  intros Hvt types first second.
  set (p1 := if again then userProfile else snd first).
  assert (Hp1 : preferences p1 = preferences userProfile) by now destruct again.
  assert (Hσ2 : fst second
                = if includes (deref (fst first) types) (vehicle_type ride)
                  then fst first
                  else <[ types := deref (fst first) types ++ [vehicle_type ride] ]>
                         (fst first)).
  { unfold second. fold p1.
    rewrite updateUserProfile_store_liked by reflexivity.
    now rewrite Hp1, Hvt. }
  assert (Hσ1 : fst first
                = if includes (deref σ types) (vehicle_type ride) then σ
                  else <[ types := deref σ types ++ [vehicle_type ride] ]> σ)
    by (apply updateUserProfile_store_liked; reflexivity).
  replace (preferredVehicleTypes (preferences (snd second))) with types
    by (unfold second; fold p1; rewrite updateUserProfile_shares_preferences;
        now rewrite Hp1).
  rewrite Hσ2. clear Hσ2. rewrite Hσ1. clear Hσ1.
  destruct (includes (deref σ types) (vehicle_type ride)) eqn:Hinc.
  - rewrite Hinc. apply includes_count_occ in Hinc. lia.
  - unfold deref at 1 2 3. rewrite !lookup_total_insert_eq. fold (deref σ types).
    assert (Hinc1 : includes (deref σ types ++ [vehicle_type ride])
                      (vehicle_type ride) = true).
    { apply includes_In, in_or_app. right. now left. }
    rewrite Hinc1. unfold deref at 1. rewrite lookup_total_insert_eq.
    fold (deref σ types). rewrite count_occ_app.
    rewrite (count_occ_includes _ _ Hinc). cbn [count_occ].
    destruct (string_dec (vehicle_type ride) (vehicle_type ride));
      [reflexivity|contradiction].
Qed.


(** What a caller holding [userProfile] reads as its preferred vehicle
    types in store [σ]. *)
Definition preferredTypesOf (σ : store) (userProfile : UserProfile) : list string :=
  deref σ (preferredVehicleTypes (preferences userProfile)).

(** C2: [updateUserProfile] does not leave its argument alone.  The rider
    of [Sample] prefers economy only; after a call with an accepted comfort
    ride rated 5 the very array the rider's profile points to holds economy
    and comfort.  (The ride history and the ratings of the argument are
    copied, and stay as they were.) *)
Theorem updateUserProfile_mutates_argument :
  let ride := mkRide "r" (Sample.aDriver 5) 0 0 0.02 0.02 12 "comfort" 3 5 in
  let now := Sample.wednesdayNoon in
  let result := updateUserProfile Sample.σ0 now now now Sample.rider ride 5 true in
  preferredTypesOf Sample.σ0 Sample.rider = ["economy"%string]
  /\ preferredTypesOf (fst result) Sample.rider = ["economy"%string; "comfort"%string]
  /\ preferredTypesOf (fst result) (snd result) = ["economy"%string; "comfort"%string]
  /\ length (rideHistory Sample.rider) = 1%nat
  /\ length (rideHistory (snd result)) = 2%nat.
Proof. cbv zeta. repeat split; vm_compute; reflexivity. Qed.

(** C7: [updateUserProfile] appends exactly one entry to the ride history
    (and keeps the entries that were there), and two calls with
    [accepted = true] and rating 5 for one vehicle class leave that class
    exactly once in [preferredVehicleTypes], when it was there at most once
    before (the specification has the preferred classes as a set); in
    general it is there [max 1 n] times when it was there [n] times. *)
Theorem updateUserProfile_append_only (σ : store)
    (now1 now2 now3 now1' now2' now3' : Date) (userProfile : UserProfile)
    (ride ride' : Ride) (rating : float) (accepted again : bool) :
  let updated :=
    snd (updateUserProfile σ now1 now2 now3 userProfile ride rating accepted) in
  let first := updateUserProfile σ now1 now2 now3 userProfile ride 5 true in
  let second :=
    updateUserProfile (fst first) now1' now2' now3'
      (if again then userProfile else snd first) ride' 5 true in
  length (rideHistory updated) = S (length (rideHistory userProfile))
  /\ firstn (length (rideHistory userProfile)) (rideHistory updated)
     = rideHistory userProfile
  /\ (vehicle_type ride' = vehicle_type ride ->
      count_occ string_dec (preferredTypesOf (fst second) (snd second))
        (vehicle_type ride)
      = Nat.max 1 (count_occ string_dec (preferredTypesOf σ userProfile)
                     (vehicle_type ride)))
  /\ (vehicle_type ride' = vehicle_type ride ->
      (count_occ string_dec (preferredTypesOf σ userProfile) (vehicle_type ride)
       <= 1)%nat ->
      count_occ string_dec (preferredTypesOf (fst second) (snd second))
        (vehicle_type ride) = 1%nat).
Proof.
  cbv zeta.
  destruct (updateUserProfile_history σ now1 now2 now3 userProfile ride rating
              accepted) as (entry & Hh & _).
  pose proof (updateUserProfile_twice σ now1 now2 now3 now1' now2' now3'
                userProfile ride ride' again) as Htwice.
  cbv zeta in Htwice. unfold preferredTypesOf.
  repeat split.
  - rewrite Hh, length_app. simpl. lia.
  - rewrite Hh, firstn_app, Nat.sub_diag, firstn_all. simpl. apply app_nil_r.
  - exact Htwice.
  - intros Hvt Hle. rewrite (Htwice Hvt). lia.
Qed.

Lemma updateUserProfile_append_only_witness :
  let now := Sample.wednesdayNoon in
  let ride := mkRide "r" (Sample.aDriver 5) 0 0 0.02 0.02 12 "comfort" 3 5 in
  let first := updateUserProfile Sample.σ0 now now now Sample.rider ride 5 true in
  let second := updateUserProfile (fst first) now now now (snd first) ride 5 true in
  length (rideHistory (snd first)) = 2%nat
  /\ count_occ string_dec (preferredTypesOf (fst second) (snd second)) "comfort"
     = 1%nat.
Proof.
  cbv zeta.
  destruct (updateUserProfile_append_only Sample.σ0 Sample.wednesdayNoon
              Sample.wednesdayNoon Sample.wednesdayNoon Sample.wednesdayNoon
              Sample.wednesdayNoon Sample.wednesdayNoon Sample.rider
              (mkRide "r" (Sample.aDriver 5) 0 0 0.02 0.02 12 "comfort" 3 5)
              (mkRide "r" (Sample.aDriver 5) 0 0 0.02 0.02 12 "comfort" 3 5)
              5 true false) as (Hlen & _ & _ & Honce).
  split.
  - exact Hlen.
  - apply Honce; [reflexivity|]. vm_compute. lia.
Defined.

(* ################################################################# *)
(** * The fallback pathfinder *)

Lemma refMath_spec : MathSpec refMath.
Proof. constructor; reflexivity. Qed.

Module AstarFacts.
Section WithMath.
Variable M : MathLib.
Hypothesis HM : MathSpec M.

Definition nowhere : Location := mkLocation nan nan.

(** ** Distances from a point with NaN coordinates *)

Lemma haversineDistance_nowhere (goal : Location) :
  haversineDistance M nowhere goal = nan.
Proof.
  unfold haversineDistance, toRadians, nowhere. cbn [lat lng].
  rewrite !FloatFacts.sub_nan_r, !FloatFacts.mul_nan_l.
  change (nan / 2) with nan. rewrite (sin_nan M HM).
  change (nan * nan) with nan.
  rewrite !FloatFacts.mul_nan_r, FloatFacts.add_nan_l.
  change (1 - nan) with nan. change (Math_sqrt nan) with nan.
  rewrite (atan2_nan M HM). reflexivity.
Qed.






(** ** A start within reach of the goal *)

Lemma haversineDistance_origin :
  haversineDistance M (mkLocation 0 0) (mkLocation 0 0) = 0.
Proof.
  unfold haversineDistance, toRadians. cbn [lat lng].
  change (0 - 0) with 0. change (0 * (Math_PI / 180)) with 0.
  change (0 / 2) with 0. rewrite (sin_zero M HM), (cos_zero M HM).
  change (Math_sqrt (0 * 0 + 1 * 1 * 0 * 0)) with 0.
  change (Math_sqrt (1 - (0 * 0 + 1 * 1 * 0 * 0))) with 1.
  rewrite (atan2_zero_one M HM). reflexivity.
Qed.

Lemma astarPathfinding_origin (fuel : nat) :
  astarPathfinding M (S fuel) (mkLocation 0 0) (mkLocation 0 0) []
  = Some (mkRoute [mkLocation 0 0] 0).
Proof.
  unfold astarPathfinding. cbn [app segments search startNode sort sort_insert location].
  rewrite haversineDistance_origin. reflexivity.
Qed.

End WithMath.
End AstarFacts.



(** C4: the returned path is not always in travel order.  With one
    waypoint the segments come out last segment first, and when the open
    set empties the two-point fallback comes out goal first. *)
Theorem astarPathfinding_path_order_broken :
  option_map path
    (astarPathfinding refMath 10 (mkLocation 0 0) (mkLocation 0.02 0.02)
       [mkLocation 0.01 0.01])
  = Some [mkLocation 0.01 0.01; mkLocation 0.02 0.02;
          mkLocation 0 0; mkLocation 0.01 0.01]
  /\
  option_map path
    (astarPathfinding refMath 10 (mkLocation 0 0) (mkLocation 0.005 0.005) [])
  = Some [mkLocation 0.005 0.005; mkLocation 0 0]
  /\ (haversineDistance refMath (mkLocation 0 0) (mkLocation 0.005 0.005) <? 0.1) = false
  /\ (haversineDistance refMath (mkLocation 0.01 0.01) (mkLocation 0.02 0.02) <? 0.1) = false.
Proof. repeat split; vm_compute; reflexivity. Qed.

(* ################################################################# *)
(** * The proximity matcher *)

(** The score as the specification gives it:
    [100 - (pickupDistance * 10 + dropoffDistance * 5 + routeDeviation * 3)],
    not below 0. *)
Definition matchScoreFormula (pickupDistance dropoffDistance routeDeviation : float)
    : float :=
  Math_max 0 (100 - (pickupDistance * 10 + dropoffDistance * 5 + routeDeviation * 3)).

Section MatchingFacts.
Variable M : MathLib.
Variables (userLocation destination : Location).

(** The match for [ride], given the trip distance the path search
    estimated. *)
Definition matchFor (estimatedTripDistance : float) (ride : Ride) : Match :=
  let pickupDistance :=
    haversineDistance M userLocation (mkLocation (pickup_lat ride) (pickup_lng ride)) in
  let dropoffDistance :=
    haversineDistance M destination (mkLocation (dropoff_lat ride) (dropoff_lng ride)) in
  let routeDeviation := Math_abs (estimatedTripDistance - distance_km ride) in
  mkMatch ride pickupDistance dropoffDistance
    (matchScoreFormula pickupDistance dropoffDistance routeDeviation).

Lemma findNearbyRides_In (rides : list Ride) (maxDistanceKm : float) (item : Nearby) :
  In item (findNearbyRides M userLocation rides maxDistanceKm) <->
  In (n_ride item) rides
  /\ n_distance item
     = haversineDistance M userLocation
         (mkLocation (pickup_lat (n_ride item)) (pickup_lng (n_ride item)))
  /\ (n_distance item <=? maxDistanceKm) = true.
Proof.
  unfold findNearbyRides. rewrite SortFacts.sort_In, filter_In, in_map_iff.
  split.
  - intros [(ride & <- & Hin) Hle]. cbn [n_ride n_distance] in *. auto.
  - intros (Hin & Hd & Hle). split; [|exact Hle].
    exists (n_ride item). split; [|exact Hin]. destruct item; cbn in *. now subst.
Qed.

Lemma mapM_total {A B : Type} (g : A -> option B) (f : A -> B) (l : list A) :
  (forall x, In x l -> g x = Some (f x)) -> mapM g l = Some (map f l).
Proof.
  induction l as [|x l IH]; intros H; [reflexivity|].
  cbn. rewrite (H x) by now left. cbn. rewrite IH; [reflexivity|].
  intros y Hy. apply H. now right.
Qed.

Lemma matchRide_found (fuel : nat) (route : Route) (item : Nearby) :
  astarPathfinding M fuel userLocation destination [] = Some route ->
  n_distance item
  = haversineDistance M userLocation
      (mkLocation (pickup_lat (n_ride item)) (pickup_lng (n_ride item))) ->
  matchRide M fuel userLocation destination item
  = Some (matchFor (totalDistance route) (n_ride item)).
Proof.
  intros Hroute Hd. unfold matchRide, matchFor, matchScoreFormula.
  rewrite Hroute, Hd. reflexivity.
Qed.

Lemma findMatchingRides_found (fuel : nat) (route : Route)
    (availableRides : list Ride) (maxDistanceKm : float) :
  astarPathfinding M fuel userLocation destination [] = Some route ->
  findMatchingRides M fuel availableRides userLocation destination maxDistanceKm
  = Some (sort (fun a b => matchScore b - matchScore a)
            (List.filter (fun m => 30 <? matchScore m)
               (map (fun item => matchFor (totalDistance route) (n_ride item))
                  (findNearbyRides M userLocation availableRides maxDistanceKm)))).
Proof.
  intros Hroute. unfold findMatchingRides.
  rewrite (mapM_total _ (fun item => matchFor (totalDistance route) (n_ride item))).
  - reflexivity.
  - intros item Hitem. apply findNearbyRides_In in Hitem as (_ & Hd & _).
    now apply matchRide_found.
Qed.

(** No ride in range: the path search is not even started. *)
Lemma findMatchingRides_none_nearby (fuel : nat) (availableRides : list Ride)
    (maxDistanceKm : float) :
  findNearbyRides M userLocation availableRides maxDistanceKm = [] ->
  findMatchingRides M fuel availableRides userLocation destination maxDistanceKm
  = Some [].
Proof. intros H. unfold findMatchingRides. now rewrite H. Qed.

End MatchingFacts.



(* ################################################################# *)
(** * The order on numbers *)

Module FloatOrder.

(** [<], [<=] and [==] on numbers all read one three-way comparison. *)
Definition cmp (x y : float) : option comparison := SFcompare (Prim2SF x) (Prim2SF y).

Lemma ltb_cmp (x y : float) : (x <? y) = true <-> cmp x y = Some Lt.
Proof.
  rewrite FloatAxioms.ltb_spec. unfold SFltb, cmp.
  destruct (SFcompare _ _) as [[| |]|]; split; congruence.
Qed.

Lemma leb_cmp (x y : float) :
  (x <=? y) = true <-> cmp x y = Some Lt \/ cmp x y = Some Eq.
Proof.
  rewrite FloatAxioms.leb_spec. unfold SFleb, cmp.
  destruct (SFcompare _ _) as [[| |]|]; split;
    [auto|auto|auto|auto|discriminate|intros [H|H]; discriminate H
    |discriminate|intros [H|H]; discriminate H].
Qed.

Lemma is_nan_cmp (x : float) : is_nan x = false <-> cmp x x = Some Eq.
Proof.
  unfold is_nan. rewrite negb_false_iff, FloatAxioms.eqb_spec. unfold SFeqb, cmp.
  destruct (SFcompare _ _) as [[| |]|]; split; congruence.
Qed.

Lemma finite_Lt (ex ey : Z) (mx my : positive) :
  match (ex ?= ey)%Z with
  | Eq => Pos.compare_cont Eq mx my
  | Lt => Lt
  | Gt => Gt
  end = Lt
  <-> (ex < ey)%Z \/ (ex = ey /\ (mx < my)%positive).
Proof.
  change (Pos.compare_cont Eq mx my) with (mx ?= my)%positive.
  destruct (Z.compare_spec ex ey); [|split; intros; [lia|reflexivity]
                                    |split; intros H'; [discriminate|lia]].
  destruct (Pos.compare_spec mx my); split; intros H'; try discriminate; try lia; reflexivity.
Qed.

Lemma finite_Eq (ex ey : Z) (mx my : positive) :
  match (ex ?= ey)%Z with
  | Eq => Pos.compare_cont Eq mx my
  | Lt => Lt
  | Gt => Gt
  end = Eq
  <-> ex = ey /\ mx = my.
Proof.
  change (Pos.compare_cont Eq mx my) with (mx ?= my)%positive.
  destruct (Z.compare_spec ex ey); [|split; intros H'; [discriminate|lia]
                                    |split; intros H'; [discriminate|lia]].
  destruct (Pos.compare_spec mx my); split; intros H'; try discriminate; try lia; auto.
Qed.

Lemma finite_neg_Lt (ex ey : Z) (mx my : positive) :
  match (ex ?= ey)%Z with
  | Eq => CompOpp (Pos.compare_cont Eq mx my)
  | Lt => Gt
  | Gt => Lt
  end = Lt
  <-> (ey < ex)%Z \/ (ex = ey /\ (my < mx)%positive).
Proof.
  change (Pos.compare_cont Eq mx my) with (mx ?= my)%positive.
  destruct (Z.compare_spec ex ey); [|split; intros H'; [discriminate|lia]
                                    |split; intros; [lia|reflexivity]].
  destruct (Pos.compare_spec mx my); simpl; split; intros H'; try discriminate; try lia; reflexivity.
Qed.

Lemma finite_neg_Eq (ex ey : Z) (mx my : positive) :
  match (ex ?= ey)%Z with
  | Eq => CompOpp (Pos.compare_cont Eq mx my)
  | Lt => Gt
  | Gt => Lt
  end = Eq
  <-> ex = ey /\ mx = my.
Proof.
  change (Pos.compare_cont Eq mx my) with (mx ?= my)%positive.
  destruct (Z.compare_spec ex ey); [|split; intros H'; [discriminate|lia]
                                    |split; intros H'; [discriminate|lia]].
  destruct (Pos.compare_spec mx my); simpl; split; intros H'; try discriminate; try lia; auto.
Qed.

(** What the comparison says, case by case, as facts [lia] can use. *)
Ltac order_cases :=
  repeat match goal with
  | H : Some _ = Some _ |- _ => injection H as H
  | H : _ = Lt |- _ => first [apply finite_Lt in H | apply finite_neg_Lt in H | discriminate H]
  | H : _ = Eq |- _ => first [apply finite_Eq in H | apply finite_neg_Eq in H | discriminate H]
  | |- Some _ = Some _ => f_equal
  | |- _ = Lt => first [reflexivity | apply finite_Lt | apply finite_neg_Lt]
  | |- _ = Eq => first [reflexivity | apply finite_Eq | apply finite_neg_Eq]
  end.

Ltac by_cases x :=
  destruct (Prim2SF x) as [[|]|[|]| |[|] ? ?].

Lemma cmp_Lt_trans (x y z : float) :
  cmp x y = Some Lt -> cmp y z = Some Lt -> cmp x z = Some Lt.
Proof.
  unfold cmp. by_cases x; by_cases y; by_cases z; simpl;
    intros H1 H2; try discriminate; try reflexivity; order_cases; lia.
Qed.

Lemma cmp_Lt_Eq_trans (x y z : float) :
  cmp x y = Some Lt -> cmp y z = Some Eq -> cmp x z = Some Lt.
Proof.
  unfold cmp. by_cases x; by_cases y; by_cases z; simpl;
    intros H1 H2; try discriminate; try reflexivity; order_cases; lia.
Qed.

Lemma cmp_Eq_Lt_trans (x y z : float) :
  cmp x y = Some Eq -> cmp y z = Some Lt -> cmp x z = Some Lt.
Proof.
  unfold cmp. by_cases x; by_cases y; by_cases z; simpl;
    intros H1 H2; try discriminate; try reflexivity; order_cases; lia.
Qed.

Lemma cmp_Eq_trans (x y z : float) :
  cmp x y = Some Eq -> cmp y z = Some Eq -> cmp x z = Some Eq.
Proof.
  unfold cmp. by_cases x; by_cases y; by_cases z; simpl;
    intros H1 H2; try discriminate; try reflexivity; order_cases; lia.
Qed.

Lemma cmp_Eq_sym (x y : float) : cmp x y = Some Eq -> cmp y x = Some Eq.
Proof.
  unfold cmp. by_cases x; by_cases y; simpl;
    intros H1; try discriminate; try reflexivity; order_cases; lia.
Qed.

Lemma cmp_Lt_not_Lt (x y : float) : cmp x y = Some Lt -> cmp y x = Some Lt -> False.
Proof.
  unfold cmp. by_cases x; by_cases y; simpl;
    intros H1 H2; try discriminate; order_cases; lia.
Qed.

Lemma cmp_Lt_not_Eq (x y : float) : cmp x y = Some Lt -> cmp y x = Some Eq -> False.
Proof.
  unfold cmp. by_cases x; by_cases y; simpl;
    intros H1 H2; try discriminate; order_cases; lia.
Qed.

Lemma Some_inj (a b : comparison) : Some a = Some b <-> a = b.
Proof. split; congruence. Qed.

(** Two numbers that are not NaN are comparable. *)
Lemma cmp_total (x y : float) :
  is_nan x = false -> is_nan y = false ->
  cmp x y = Some Lt \/ cmp x y = Some Eq \/ cmp y x = Some Lt.
Proof.
  rewrite !is_nan_cmp. unfold cmp. by_cases x; by_cases y; simpl;
    intros H1 H2; try discriminate; auto;
    rewrite !Some_inj; first [rewrite !finite_Lt, finite_Eq | rewrite !finite_neg_Lt, finite_neg_Eq];
    lia.
Qed.

Lemma cmp_not_nan (x y : float) (c : comparison) :
  cmp x y = Some c -> is_nan x = false /\ is_nan y = false.
Proof.
  rewrite !is_nan_cmp. unfold cmp. by_cases x; by_cases y; simpl;
    intros H1; try discriminate; split; try reflexivity;
    rewrite Some_inj; first [apply finite_Eq | apply finite_neg_Eq]; auto.
Qed.

(** ** In terms of [<?] and [<=?] *)

Lemma ltb_trans (x y z : float) :
  (x <? y) = true -> (y <? z) = true -> (x <? z) = true.
Proof. rewrite !ltb_cmp. apply cmp_Lt_trans. Qed.

Lemma ltb_asym (x y : float) : (x <? y) = true -> (y <? x) = false.
Proof.
  rewrite ltb_cmp. intros H.
  apply not_true_is_false. rewrite ltb_cmp. exact (cmp_Lt_not_Lt _ _ H).
Qed.

Lemma ltb_leb (x y : float) : (x <? y) = true -> (x <=? y) = true.
Proof. rewrite ltb_cmp, leb_cmp. auto. Qed.

Lemma leb_refl (x : float) : is_nan x = false -> (x <=? x) = true.
Proof. rewrite is_nan_cmp, leb_cmp. auto. Qed.

Lemma leb_not_nan (x y : float) :
  (x <=? y) = true -> is_nan x = false /\ is_nan y = false.
Proof. rewrite leb_cmp. intros [H|H]; exact (cmp_not_nan _ _ _ H). Qed.

Lemma ltb_not_nan (x y : float) :
  (x <? y) = true -> is_nan x = false /\ is_nan y = false.
Proof. intros H. now apply leb_not_nan, ltb_leb. Qed.

Lemma not_ltb_leb (x y : float) :
  is_nan x = false -> is_nan y = false -> (x <? y) = false -> (y <=? x) = true.
Proof.
  intros Hx Hy Hlt. apply leb_cmp.
  destruct (cmp_total x y Hx Hy) as [H|[H|H]]; auto.
  - apply ltb_cmp in H. congruence.
  - right. now apply cmp_Eq_sym.
Qed.

Lemma leb_not_ltb (x y : float) : (x <=? y) = true -> (y <? x) = false.
Proof.
  rewrite leb_cmp. intros H. apply not_true_is_false. rewrite ltb_cmp. intros Hyx.
  destruct H as [H|H].
  - exact (cmp_Lt_not_Lt _ _ H Hyx).
  - exact (cmp_Lt_not_Eq _ _ Hyx H).
Qed.

Lemma leb_trans (x y z : float) :
  (x <=? y) = true -> (y <=? z) = true -> (x <=? z) = true.
Proof.
  rewrite !leb_cmp. intros [H1|H1] [H2|H2].
  - left. eapply cmp_Lt_trans; eauto.
  - left. eapply cmp_Lt_Eq_trans; eauto.
  - left. eapply cmp_Eq_Lt_trans; eauto.
  - right. eapply cmp_Eq_trans; eauto.
Qed.

Lemma leb_ltb_trans (x y z : float) :
  (x <=? y) = true -> (y <? z) = true -> (x <? z) = true.
Proof.
  rewrite leb_cmp, !ltb_cmp. intros [H1|H1] H2.
  - eapply cmp_Lt_trans; eauto.
  - eapply cmp_Eq_Lt_trans; eauto.
Qed.

Lemma ltb_leb_trans (x y z : float) :
  (x <? y) = true -> (y <=? z) = true -> (x <? z) = true.
Proof.
  rewrite leb_cmp, !ltb_cmp. intros H1 [H2|H2].
  - eapply cmp_Lt_trans; eauto.
  - eapply cmp_Lt_Eq_trans; eauto.
Qed.

(** ** [Math.max] and [Math.min] *)

Lemma Math_max_cases (a b : float) :
  Math_max a b = nan /\ (is_nan a = true \/ is_nan b = true)
  \/ is_nan a = false /\ is_nan b = false
     /\ (Math_max a b = a \/ Math_max a b = b)
     /\ (a <=? Math_max a b) = true /\ (b <=? Math_max a b) = true.
Proof.
  unfold Math_max.
  destruct (is_nan a) eqn:Ha; [left; auto|].
  destruct (is_nan b) eqn:Hb; [left; auto|]. cbn [orb]. right.
  repeat split; try reflexivity.
  - destruct (a <? b), (b <? a), (is_neg_zero a); auto.
  - destruct (a <? b) eqn:Hab; [now apply ltb_leb|].
    destruct (b <? a) eqn:Hba; [now apply leb_refl|].
    destruct (is_neg_zero a); [now apply not_ltb_leb|now apply leb_refl].
  - destruct (a <? b) eqn:Hab; [now apply leb_refl|].
    destruct (b <? a) eqn:Hba; [now apply ltb_leb|].
    destruct (is_neg_zero a); [now apply leb_refl|now apply not_ltb_leb].
Qed.

Lemma Math_min_cases (a b : float) :
  Math_min a b = nan /\ (is_nan a = true \/ is_nan b = true)
  \/ is_nan a = false /\ is_nan b = false
     /\ (Math_min a b = a \/ Math_min a b = b)
     /\ (Math_min a b <=? a) = true /\ (Math_min a b <=? b) = true.
Proof.
  unfold Math_min.
  destruct (is_nan a) eqn:Ha; [left; auto|].
  destruct (is_nan b) eqn:Hb; [left; auto|]. cbn [orb]. right.
  repeat split; try reflexivity.
  - destruct (a <? b), (b <? a), (is_neg_zero a); auto.
  - destruct (a <? b) eqn:Hab; [now apply leb_refl|].
    destruct (b <? a) eqn:Hba; [now apply ltb_leb|].
    destruct (is_neg_zero a); [now apply leb_refl|now apply not_ltb_leb].
  - destruct (a <? b) eqn:Hab; [now apply ltb_leb|].
    destruct (b <? a) eqn:Hba; [now apply leb_refl|].
    destruct (is_neg_zero a); [now apply not_ltb_leb|now apply leb_refl].
Qed.

End FloatOrder.

(** ** Rounding keeps the sign

    A comparator [a - b] is read by [sort] through the sign of the
    difference.  The difference of two numbers is rounded, and what makes
    the comparator agree with [<] is that rounding a positive value never
    gives zero: the smallest gap between two numbers is a multiple of the
    smallest subnormal. *)

Module Rounding.
Local Open Scope Z_scope.

Definition emin64 : Z := SpecFloat.emin prec emax.
Definition fexp64 (e : Z) : Z := fexp prec emax e.

Lemma fexp64_eq (e : Z) : fexp64 e = Z.max (e - 53) (-1074).
Proof. reflexivity. Qed.

Lemma digits_size (m : positive) : digits2_pos m = Pos.size m.
Proof. induction m as [m IH|m IH|]; simpl; now rewrite ?IH. Qed.

Lemma digits_lower (m : positive) : 2 ^ (Z.pos (digits2_pos m) - 1) <= Z.pos m.
Proof.
  rewrite digits_size.
  pose proof (Pos.size_le m) as H.
  assert (H' : (2 ^ Z.pos (Pos.size m) <= 2 * Z.pos m)).
  { change 2 with (Z.pos 2) at 1. rewrite <- Pos2Z.inj_pow. 
    change (2 * Z.pos m) with (Z.pos (m~0)). now apply Pos2Z.pos_le_pos. }
  replace (Z.pos (Pos.size m)) with (Z.succ (Z.pos (Pos.size m) - 1)) in H' by lia.
  rewrite Z.pow_succ_r in H' by lia. lia.
Qed.

Lemma digits_upper (m : positive) : Z.pos m < 2 ^ Z.pos (digits2_pos m).
Proof.
  rewrite digits_size. pose proof (Pos.size_gt m) as H.
  change 2 with (Z.pos 2). rewrite <- Pos2Z.inj_pow. now apply Pos2Z.pos_lt_pos.
Qed.

(** One right shift halves the mantissa. *)
Lemma shr_1_m (r : shr_record) : 0 <= shr_m r -> shr_m (shr_1 r) = shr_m r / 2.
Proof.
  destruct r as [m rb sb]. simpl. intros Hm.
  destruct m as [|[p|p|]|p]; simpl; try reflexivity; try lia.
  - apply Z.div_unique with 1; lia.
  - apply Z.div_unique with 0; lia.
Qed.

Lemma shr_1_nonneg (r : shr_record) : 0 <= shr_m r -> 0 <= shr_m (shr_1 r).
Proof. intros H. rewrite shr_1_m by exact H. apply Z.div_pos; lia. Qed.

Lemma iter_shr_m (p : positive) (r : shr_record) :
  0 <= shr_m r ->
  shr_m (SpecFloat.iter_pos shr_1 p r) = shr_m r / 2 ^ Z.pos p
  /\ 0 <= shr_m (SpecFloat.iter_pos shr_1 p r).
Proof.
  revert r. induction p as [p IH|p IH|]; intros r Hr; cbn [SpecFloat.iter_pos].
  - destruct (IH (shr_1 r) (shr_1_nonneg r Hr)) as [E1 N1].
    destruct (IH _ N1) as [E2 N2]. split; [|exact N2].
    rewrite E2, E1, shr_1_m by exact Hr.
    rewrite !Z.div_div by (try apply Z.pow_pos_nonneg; lia).
    f_equal.
    replace (Z.pos p~1) with (1 + Z.pos p + Z.pos p) by lia.
    rewrite !Z.pow_add_r by lia. change (2 ^ 1) with 2. ring.
  - destruct (IH r Hr) as [E1 N1]. destruct (IH _ N1) as [E2 N2].
    split; [|exact N2]. rewrite E2, E1.
    rewrite Z.div_div by (try apply Z.pow_pos_nonneg; lia).
    f_equal.
    replace (Z.pos p~0) with (Z.pos p + Z.pos p) by lia.
    rewrite Z.pow_add_r by lia. ring.
  - split; [|now apply shr_1_nonneg]. rewrite shr_1_m by exact Hr. reflexivity.
Qed.

(** Shifting a positive mantissa to its format exponent leaves it positive,
    when the exponent is not below the least one. *)
Lemma shr_fexp_pos (m : positive) (e : Z) (l : SpecFloat.location) :
  emin64 <= e ->
  0 < shr_m (fst (shr_fexp prec emax (Z.pos m) e l))
  /\ emin64 <= snd (shr_fexp prec emax (Z.pos m) e l).
Proof.
  intros He. unfold shr_fexp, shr. cbn [Zdigits2].
  set (n := fexp prec emax (Z.pos (digits2_pos m) + e) - e).
  assert (Hm : shr_m (shr_record_of_loc (Z.pos m) l) = Z.pos m)
    by (destruct l as [|[| |]]; reflexivity).
  destruct n as [|p|p] eqn:Hn; cbn [fst snd]; try (rewrite Hm; split; [lia|exact He]).
  destruct (iter_shr_m p (shr_record_of_loc (Z.pos m) l)) as [E _]; [rewrite Hm; lia|].
  rewrite E, Hm. split.
  - assert (Hp : Z.pos p = Z.pos (digits2_pos m) - 53).
    { subst n. change (fexp prec emax ?x) with (Z.max (x - 53) (-1074)) in Hn.
      unfold emin64 in He. change (SpecFloat.emin prec emax) with (-1074) in He. lia. }
    apply Z.div_str_pos. split; [apply Z.pow_pos_nonneg; lia|].
    pose proof (digits_lower m) as Hl.
    apply Z.le_trans with (2 ^ (Z.pos (digits2_pos m) - 1)); [|exact Hl].
    apply Z.pow_le_mono_r; lia.
  - lia.
Qed.

Lemma round_nearest_even_pos (m : Z) (l : SpecFloat.location) :
  0 < m -> 0 < round_nearest_even m l.
Proof.
  intros Hm. unfold round_nearest_even.
  destruct l as [|[| |]]; try lia. destruct (Z.even m); lia.
Qed.

Definition positive_result (r : spec_float) : Prop :=
  SFltb (S754_zero false) r = true.

Lemma binary_round_aux_pos (m : positive) (e : Z) (l : SpecFloat.location) :
  emin64 <= e -> positive_result (binary_round_aux prec emax false (Z.pos m) e l).
Proof.
  intros He. unfold binary_round_aux.
  destruct (shr_fexp_pos m e l He) as [Hpos He'].
  destruct (shr_fexp prec emax (Z.pos m) e l) as [mrs' e'] eqn:H1. cbn [fst snd] in *.
  pose proof (round_nearest_even_pos (shr_m mrs') (loc_of_shr_record mrs') Hpos) as Hr.
  destruct (round_nearest_even (shr_m mrs') (loc_of_shr_record mrs')) as [|m''|m''];
    try lia.
  destruct (shr_fexp_pos m'' e' loc_Exact He') as [Hpos2 _].
  destruct (shr_fexp prec emax (Z.pos m'') e' loc_Exact) as [mrs'' e''].
  cbn [fst] in Hpos2.
  destruct (shr_m mrs'') as [|mz|mz]; try lia.
  destruct (e'' <=? emax - prec); reflexivity.
Qed.

Lemma binary_round_pos (m : positive) (e : Z) :
  emin64 <= e -> positive_result (binary_round prec emax false m e).
Proof.
  intros He. unfold binary_round.
  destruct (shl_align m e (fexp prec emax (Z.pos (digits2_pos m) + e))) as [mz ez] eqn:Hs.
  apply binary_round_aux_pos.
  unfold shl_align in Hs.
  destruct (fexp prec emax (Z.pos (digits2_pos m) + e) - e) eqn:Hd;
    injection Hs as <- <-; try exact He.
  change (fexp prec emax ?x) with (Z.max (x - 53) (-1074)).
  unfold emin64. change (SpecFloat.emin prec emax) with (-1074). lia.
Qed.


(** ** The sign of a difference *)

Lemma iter_xO_value (m d : positive) :
  Z.pos (Pos.iter xO m d) = Z.pos m * 2 ^ Z.pos d.
Proof.
  revert m. induction d as [|d IH] using Pos.peano_ind; intros m.
  - simpl. lia.
  - rewrite Pos.iter_succ, Pos2Z.inj_xO, IH, Pos2Z.inj_succ, Z.pow_succ_r by lia. ring.
Qed.

Lemma shl_align_value (m : positive) (e ez : Z) :
  ez <= e -> Z.pos (fst (shl_align m e ez)) = Z.pos m * 2 ^ (e - ez).
Proof.
  intros He. unfold shl_align.
  destruct (ez - e) as [|p|p] eqn:Hd; cbn [fst]; try lia.
  - replace (e - ez) with 0 by lia. simpl. lia.
  - rewrite iter_xO_value. f_equal. f_equal. lia.
Qed.

(** What validity says of a finite number. *)
Lemma valid_finite (s : bool) (m : positive) (e : Z) :
  SpecFloat.valid_binary prec emax (S754_finite s m e) = true ->
  -1074 <= e
  /\ Z.pos (digits2_pos m) <= 53
  /\ (-1074 < e -> Z.pos (digits2_pos m) = 53).
Proof.
  unfold SpecFloat.valid_binary, bounded, canonical_mantissa.
  change (fexp prec emax ?x) with (Z.max (x - 53) (-1074)).
  intros H. apply andb_true_iff in H as [H _]. apply Z.eqb_eq in H. lia.
Qed.

Lemma pow2_ge_2 (k : Z) : 0 < k -> 2 <= 2 ^ k.
Proof.
  intros Hk. replace k with (Z.succ (k - 1)) by lia.
  rewrite Z.pow_succ_r by lia.
  assert (0 < 2 ^ (k - 1)) by (apply Z.pow_pos_nonneg; lia). lia.
Qed.

(** Of two valid numbers of one sign with [(ex, mx)] below [(ey, my)], the
    second is the larger in magnitude once both are aligned. *)
Lemma aligned_lt (mx my : positive) (ex ey : Z) (sx sy : bool) :
  SpecFloat.valid_binary prec emax (S754_finite sx mx ex) = true ->
  SpecFloat.valid_binary prec emax (S754_finite sy my ey) = true ->
  ex < ey \/ (ex = ey /\ (mx < my)%positive) ->
  Z.pos (fst (shl_align mx ex (Z.min ey ex)))
  < Z.pos (fst (shl_align my ey (Z.min ey ex))).
Proof.
  intros Vx Vy Hlt.
  apply valid_finite in Vx as (Hex & Hdx & _).
  apply valid_finite in Vy as (Hey & Hdy & Hny).
  rewrite !shl_align_value by lia.
  destruct Hlt as [Hlt|[-> Hlt]].
  - rewrite Z.min_r by lia. rewrite Z.sub_diag. change (2 ^ 0) with 1.
    pose proof (digits_upper mx) as Hux. pose proof (digits_lower my) as Hly.
    rewrite Hny in Hly by lia. change (2 ^ (53 - 1)) with 4503599627370496 in Hly.
    assert (Hx53 : Z.pos mx < 2 ^ 53).
    { apply Z.lt_le_trans with (1 := Hux). apply Z.pow_le_mono_r; lia. }
    change (2 ^ 53) with 9007199254740992 in Hx53.
    pose proof (pow2_ge_2 (ey - ex)) as Hp. nia.
  - rewrite Z.min_id, Z.sub_diag. change (2 ^ 0) with 1. lia.
Qed.

Lemma binary_normalize_pos (d e : Z) :
  0 < d -> emin64 <= e -> positive_result (binary_normalize prec emax d e false).
Proof.
  intros Hd He. destruct d as [|d|d]; try lia. now apply binary_round_pos.
Qed.

Lemma SFsub_finite (sx sy : bool) (mx my : positive) (ex ey : Z) :
  SFsub prec emax (S754_finite sy my ey) (S754_finite sx mx ex)
  = binary_normalize prec emax
      (cond_Zopp sy (Z.pos (fst (shl_align my ey (Z.min ey ex))))
       - cond_Zopp sx (Z.pos (fst (shl_align mx ex (Z.min ey ex)))))
      (Z.min ey ex) false.
Proof. reflexivity. Qed.

Lemma compare_lex (mx my : positive) (ex ey : Z) :
  match ex ?= ey with
  | Eq => Pos.compare_cont Eq mx my
  | Lt => Lt
  | Gt => Gt
  end = Lt ->
  ex < ey \/ (ex = ey /\ (mx < my)%positive).
Proof.
  destruct (Z.compare_spec ex ey) as [->|Hlt|Hgt]; intros H; try discriminate H; [|lia].
  right. split; [reflexivity|]. exact H.
Qed.

Lemma SFsub_pos (x y : spec_float) :
  SpecFloat.valid_binary prec emax x = true ->
  SpecFloat.valid_binary prec emax y = true ->
  SFltb x y = true -> positive_result (SFsub prec emax y x).
Proof.
  intros Vx Vy. unfold SFltb, positive_result.
  destruct x as [sx|sx| |sx mx ex], y as [sy|sy| |sy my ey];
    try destruct sx; try destruct sy; intros H; simpl in H; try discriminate H;
    try reflexivity.
  all: pose proof (valid_finite _ _ _ Vx) as (Hex & _ & _).
  all: pose proof (valid_finite _ _ _ Vy) as (Hey & _ & _).
  all: rewrite SFsub_finite; apply binary_normalize_pos;
    [|unfold emin64; change (SpecFloat.emin prec emax) with (-1074); lia].
  all: cbn [cond_Zopp].
  - (* both negative *)
    assert (Hlex : ey < ex \/ (ey = ex /\ (my < mx)%positive)).
    { apply (compare_lex my mx ey ex).
      rewrite (Z.compare_antisym ex ey).
      destruct (ex ?= ey); simpl in *; try discriminate H.
      - change (Pos.compare_cont (CompOpp Eq) my mx = Lt).
        rewrite <- (Pos.compare_cont_antisym mx my Eq).
        change (PosDef.Pos.compare_cont Eq mx my) with (Pos.compare_cont Eq mx my) in H.
        simpl. destruct (Pos.compare_cont Eq mx my); try discriminate H; reflexivity.
      - reflexivity. }
    pose proof (aligned_lt my mx ey ex true true Vy Vx Hlex) as Hal.
    rewrite (Z.min_comm ex ey) in Hal. lia.
  - (* x negative, y positive *)
    lia.
  - (* both positive *)
    assert (Hlex : ex < ey \/ (ex = ey /\ (mx < my)%positive)).
    { apply (compare_lex mx my ex ey).
      destruct (ex ?= ey); try discriminate H; try reflexivity.
      change (PosDef.Pos.compare_cont Eq mx my) with (Pos.compare_cont Eq mx my) in H.
      destruct (Pos.compare_cont Eq mx my); try discriminate H; reflexivity. }
    pose proof (aligned_lt mx my ex ey false false Vx Vy Hlex) as Hal. lia.
Qed.

Local Open Scope float_scope.

(** When [x < y], [y - x] is positive. *)
Lemma ltb_sub_pos (x y : float) : (x <? y) = true -> (0 <? y - x) = true.
Proof.
  rewrite !FloatAxioms.ltb_spec, FloatAxioms.sub_spec.
  change (Prim2SF 0) with (S754_zero false).
  apply SFsub_pos; apply FloatAxioms.Prim2SF_valid.
Qed.

End Rounding.


(** ** More on [sort] *)

Module SortMore.

Lemma sort_ascending_sorted {A : Type} (key : A -> float) (l : list A) :
  Sorted (fun a b => (0 <? key a - key b) = false)
    (sort (fun a b => key a - key b) l).
Proof.
  apply (SortFacts.sort_sorted (fun a b => key a - key b)).
  intros a b. apply FloatFacts.sub_pos_asym.
Qed.



(** What [0 <? y - x] being false says of [x] and [y]. *)
Lemma sub_not_pos_ltb (x y : float) : (0 <? y - x) = false -> (x <? y) = false.
Proof.
  intros H. destruct (x <? y) eqn:Hlt; [|reflexivity].
  apply Rounding.ltb_sub_pos in Hlt. congruence.
Qed.

Lemma sub_not_pos_leb (x y : float) :
  is_nan x = false -> is_nan y = false -> (0 <? y - x) = false -> (y <=? x) = true.
Proof.
  intros Hx Hy H. apply FloatOrder.not_ltb_leb; try assumption.
  now apply sub_not_pos_ltb.
Qed.

Lemma Sorted_Forall_impl {A : Type} (P : A -> Prop) (R R' : A -> A -> Prop)
    (l : list A) :
  (forall a b, P a -> P b -> R a b -> R' a b) ->
  Forall P l -> Sorted R l -> Sorted R' l.
Proof.
  intros Himp HP Hs. induction Hs as [|a l Hs IH Hhd]; [constructor|].
  inversion HP as [|? ? Ha Hl]; subst. constructor; [now apply IH|].
  destruct Hhd as [|b l Hab]; constructor. inversion Hl; subst. now apply Himp.
Qed.

(** Sorting on a key that is a number for every element orders the whole
    list by [<=]. *)
Lemma sort_ascending_ordered {A : Type} (key : A -> float) (l : list A) :
  Forall (fun a => is_nan (key a) = false) l ->
  StronglySorted (fun a b => (key a <=? key b) = true)
    (sort (fun a b => key a - key b) l).
Proof.
  intros Hnan. apply Sorted_StronglySorted.
  { intros a b c. apply FloatOrder.leb_trans. }
  apply (Sorted_Forall_impl (fun a => is_nan (key a) = false)
           (fun a b => (0 <? key a - key b) = false)).
  - intros a b Ha Hb H. now apply sub_not_pos_leb.
  - now apply SortFacts.sort_Forall.
  - apply sort_ascending_sorted.
Qed.

Lemma sort_descending_ordered {A : Type} (key : A -> float) (l : list A) :
  Forall (fun a => is_nan (key a) = false) l ->
  StronglySorted (fun a b => (key b <=? key a) = true)
    (sort (fun a b => key b - key a) l).
Proof.
  intros Hnan. apply Sorted_StronglySorted.
  { intros a b c H1 H2. exact (FloatOrder.leb_trans _ _ _ H2 H1). }
  apply (Sorted_Forall_impl (fun a => is_nan (key a) = false)
           (fun a b => (0 <? key b - key a) = false)).
  - intros a b Ha Hb H. now apply sub_not_pos_leb.
  - now apply SortFacts.sort_Forall.
  - apply SortFacts.sort_descending_sorted.
Qed.


Lemma StronglySorted_firstn {A : Type} (R : A -> A -> Prop) (n : nat) (l : list A) :
  StronglySorted R l -> StronglySorted R (firstn n l).
Proof.
  intros Hs. revert n. induction Hs as [|a l Hs IH Hall]; intros [|n]; simpl;
    try constructor.
  - apply IH.
  - apply List.Forall_forall. intros b Hb. rewrite List.Forall_forall in Hall.
    apply Hall. revert Hb. clear. revert n.
    induction l as [|c l IHl]; intros [|n]; simpl; try tauto.
    intros [->|Hb]; [now left|right; eauto].
Qed.

Lemma filter_idempotent {A : Type} (p : A -> bool) (l : list A) :
  List.filter p (List.filter p l) = List.filter p l.
Proof.
  induction l as [|x l IH]; simpl; [reflexivity|].
  destruct (p x) eqn:Hx; simpl; [rewrite Hx; now f_equal|exact IH].
Qed.

End SortMore.

(* ################################################################# *)
(** * Further properties of the pipeline *)

Section PipelineStructure.
Variable M : MathLib.

Lemma filter_map_comm {A B : Type} (f : A -> B) (p : B -> bool) (l : list A) :
  List.filter p (map f l) = map f (List.filter (fun x => p (f x)) l).
Proof.
  induction l as [|x l IH]; simpl; [reflexivity|].
  destruct (p (f x)); simpl; now rewrite IH.
Qed.

(** [findNearbyRides] returns the rides whose pickup is within
    [maxDistanceKm] of the user, each once and with its distance, and
    every item no farther than all that follow it; a ride whose distance is
    NaN is dropped. *)
Theorem findNearbyRides_within_range (userLocation : Location)
    (rides : list Ride) (maxDistanceKm : float) :
  let distanceTo ride :=
    haversineDistance M userLocation
      (mkLocation (pickup_lat ride) (pickup_lng ride)) in
  let result := findNearbyRides M userLocation rides maxDistanceKm in
  Permutation (map n_ride result)
    (List.filter (fun ride => distanceTo ride <=? maxDistanceKm) rides)
  /\ Forall (fun item =>
       n_distance item = distanceTo (n_ride item)
       /\ (n_distance item <=? maxDistanceKm) = true
       /\ is_nan (n_distance item) = false) result
  /\ StronglySorted (fun a b => (n_distance a <=? n_distance b) = true) result.
Proof.
  cbv zeta. unfold findNearbyRides. split; [|split].
  - rewrite SortFacts.sort_perm, filter_map_comm, map_map. cbn [n_ride n_distance].
    now rewrite map_id.
  - apply SortFacts.sort_Forall, List.Forall_forall. intros item Hitem.
    apply filter_In in Hitem as [Hitem Hle].
    apply in_map_iff in Hitem as (ride & <- & _). cbn [n_ride n_distance] in *.
    repeat split; try assumption. now apply FloatOrder.leb_not_nan in Hle.
  - apply (SortMore.sort_ascending_ordered n_distance), List.Forall_forall.
    intros item Hitem. apply filter_In in Hitem as [_ Hle].
    now apply FloatOrder.leb_not_nan in Hle.
Qed.

(** ** Score ranges *)

(** [inductiveScoring] is clamped at both ends: its result is NaN or lies
    in [0, 100]. *)
Theorem inductiveScoring_range (currentHour : Z) (ride : Ride)
    (userProfile : UserProfile) (userLocation destination : Location) :
  let score :=
    inductiveScoring M currentHour ride userProfile userLocation destination in
  is_nan score = true \/ ((0 <=? score) = true /\ (score <=? 100) = true).
Proof.
  cbv zeta. unfold inductiveScoring.
  match goal with |- context [Math_min 100 (Math_max 0 ?s)] => set (raw := s) end.
  destruct (FloatOrder.Math_min_cases 100 (Math_max 0 raw))
    as [[-> _]|(_ & Hx & Hpick & Hle & _)]; [now left|right].
  split; [|exact Hle].
  destruct Hpick as [-> | ->]; [reflexivity|].
  destruct (FloatOrder.Math_max_cases 0 raw) as [[Hnan _]|(_ & _ & _ & H0 & _)];
    [|exact H0].
  rewrite Hnan in Hx. discriminate Hx.
Qed.

(** [contentBasedFiltering] is clamped above only: its result is NaN or
    at most 100, and it is 50 when there is no history. *)
Theorem contentBasedFiltering_at_most_100 (ride : Ride) (userProfile : UserProfile) :
  let score := contentBasedFiltering M ride userProfile in
  (rideHistory userProfile = [] -> score = 50)
  /\ (is_nan score = true \/ (score <=? 100) = true).
Proof.
  cbv zeta. unfold contentBasedFiltering. split.
  - now intros ->.
  - destruct (length (rideHistory userProfile) =? 0)%nat; [now right|].
    match goal with |- context [Math_min 100 ?s] => set (raw := s) end.
    destruct (FloatOrder.Math_min_cases 100 raw) as [[-> _]|(_ & _ & _ & Hle & _)];
      [now left|now right].
Qed.

(** ** The deductive filter as a list operation *)

(** The filter judges each ride on its own: it keeps the rides in their
    order, filtering a concatenation is filtering its parts, filtering
    again removes nothing, and the destination plays no part. *)
Theorem deductiveFiltering_per_ride (σ : store) (userProfile : UserProfile)
    (userLocation destination : Location) (rides rides' : list Ride) :
  let keep l := deductiveFiltering M σ l userProfile userLocation destination in
  sublist (keep rides) rides
  /\ keep (rides ++ rides') = keep rides ++ keep rides'
  /\ keep (keep rides) = keep rides
  /\ (forall destination',
        deductiveFiltering M σ rides userProfile userLocation destination'
        = keep rides).
Proof.
  cbv zeta. unfold deductiveFiltering. repeat split.
  - induction rides as [|r l IH]; simpl; [constructor|].
    destruct (passesRules M σ userProfile userLocation r); now constructor.
  - apply List.filter_app.
  - apply SortMore.filter_idempotent.
Qed.

(** ** The hybrid combiner *)

Definition labelFor (finalScore : float) : ReasoningLine :=
  if 80 <=? finalScore then HighlyRecommended
  else if 60 <=? finalScore then GoodMatch
  else AverageMatch.




End PipelineStructure.

(** ** Peers that do not count *)

Lemma findSimilarUsers_skip (σ : store) (userProfile u : UserProfile)
    (before after : list UserProfile) :
  u_id u = u_id userProfile \/ rideHistory u = [] ->
  findSimilarUsers σ userProfile (before ++ u :: after)
  = findSimilarUsers σ userProfile (before ++ after).
Proof.
  intros Hu. unfold findSimilarUsers. rewrite !List.filter_app. cbn [List.filter].
  replace (negb (u_id u =? u_id userProfile)%string && (0 <? length (rideHistory u))%nat)
    with false; [reflexivity|].
  destruct Hu as [-> | ->].
  - now rewrite String.eqb_refl.
  - cbn. now rewrite andb_false_r.
Qed.

(** The rider's own profile among the peers, and peers without a ride
    history, make no difference to [collaborativeFiltering]. *)
Theorem collaborativeFiltering_skips_self_and_idle (σ : store) (ride : Ride)
    (userProfile u : UserProfile) (before after : list UserProfile) :
  u_id u = u_id userProfile \/ rideHistory u = [] ->
  collaborativeFiltering σ ride userProfile (before ++ u :: after)
  = collaborativeFiltering σ ride userProfile (before ++ after).
Proof.
  intros Hu. unfold collaborativeFiltering. now rewrite findSimilarUsers_skip.
Qed.

Lemma collaborativeFiltering_skips_self_and_idle_witness :
  collaborativeFiltering Sample.σ0 (Sample.aRide "c" 15 5) Sample.rider
    ([Sample.peer] ++ Sample.rider :: [Sample.stranger])
  = collaborativeFiltering Sample.σ0 (Sample.aRide "c" 15 5) Sample.rider
      ([Sample.peer] ++ [Sample.stranger]).
Proof.
  apply collaborativeFiltering_skips_self_and_idle. left. reflexivity.
Defined.

(** The similar peers come most similar first, each at least as similar as
    all that follow it, and all of them are returned when there are at most
    ten. *)
Theorem findSimilarUsers_most_similar_first (σ : store)
    (userProfile : UserProfile) (allUsers : list UserProfile) :
  let similar u :=
    negb (String.eqb (u_id u) (u_id userProfile))
    && (0 <? length (rideHistory u))%nat
    && (0.5 <? calculateUserSimilarity σ userProfile u) in
  let result := findSimilarUsers σ userProfile allUsers in
  StronglySorted (fun a b => (similarity b <=? similarity a) = true) result
  /\ length result = Nat.min 10 (length (List.filter similar allUsers))
  /\ ((length (List.filter similar allUsers) <= 10)%nat ->
      Permutation (map user result) (List.filter similar allUsers)).
Proof.
  cbv zeta. unfold findSimilarUsers.
  set (cmp := fun a b : SimilarUser => similarity b - similarity a).
  set (scored := List.filter _ (map _ _)).
  assert (Hscored : map user scored
                    = List.filter (fun u =>
                        negb (String.eqb (u_id u) (u_id userProfile))
                        && (0 <? length (rideHistory u))%nat
                        && (0.5 <? calculateUserSimilarity σ userProfile u)) allUsers).
  { unfold scored. rewrite filter_map_comm, map_map. cbn [user similarity].
    rewrite map_id. clear. induction allUsers as [|u l IH]; simpl; [reflexivity|].
    destruct (negb (u_id u =? u_id userProfile)%string && (0 <? length (rideHistory u))%nat);
      simpl; [|exact IH].
    destruct (0.5 <? calculateUserSimilarity σ userProfile u); simpl; now rewrite IH. }
  assert (Hlen : length (sort cmp scored)
                 = length (List.filter (fun u =>
                        negb (String.eqb (u_id u) (u_id userProfile))
                        && (0 <? length (rideHistory u))%nat
                        && (0.5 <? calculateUserSimilarity σ userProfile u)) allUsers)).
  { now rewrite SortFacts.sort_length, <- Hscored, length_map. }
  split; [|split].
  - apply SortMore.StronglySorted_firstn.
    apply (SortMore.sort_descending_ordered similarity), List.Forall_forall.
    intros su Hsu. apply filter_In in Hsu as [_ Hsim].
    now apply FloatOrder.ltb_not_nan in Hsim.
  - rewrite length_firstn, Hlen. reflexivity.
  - intros Hle. rewrite firstn_all2 by lia.
    now rewrite SortFacts.sort_perm, Hscored.
Qed.

(* ################################################################# *)
(** * Further properties of the fallback pathfinder *)

Module AstarShape.
Section WithMath.
Variable M : MathLib.

(** The node a parent chain ends in. *)
Fixpoint rootOf (node : PathNode) : Location :=
  match node with
  | mkNode l _ _ _ p => match p with Some n => rootOf n | None => l end
  end.

(** Induction along parent links. *)
Fixpoint PathNode_chain_ind (P : PathNode -> Prop)
    (Hroot : forall l g0 h0 f0, P (mkNode l g0 h0 f0 None))
    (Hlink : forall l g0 h0 f0 n, P n -> P (mkNode l g0 h0 f0 (Some n)))
    (node : PathNode) : P node :=
  match node with
  | mkNode l g0 h0 f0 None => Hroot l g0 h0 f0
  | mkNode l g0 h0 f0 (Some n) =>
      Hlink l g0 h0 f0 n (PathNode_chain_ind P Hroot Hlink n)
  end.

Lemma parentChain_nonempty (node : PathNode) :
  exists rest, parentChain node = location node :: rest.
Proof. destruct node as [l g0 h0 f0 p]. eexists. reflexivity. Qed.

Lemma parentChain_last (node : PathNode) (d : Location) :
  List.last (parentChain node) d = rootOf node.
Proof.
  induction node as [l g0 h0 f0|l g0 h0 f0 n IH] using PathNode_chain_ind;
    [reflexivity|].
  destruct (parentChain_nonempty n) as (rest & Hn).
  cbn [parentChain rootOf]. cbn [parentChain] in IH.
  change (parentChain n) with (parentChain n) in *.
  rewrite <- IH.
  change (match n with mkNode l0 _ _ _ p => l0 :: match p with Some n0 => parentChain n0 | None => [] end end)
    with (parentChain n).
  rewrite Hn. reflexivity.
Qed.

Lemma rev_head_last {A : Type} (l : list A) (d : A) :
  hd d (rev l) = List.last l d.
Proof.
  induction l as [|x l IH]; [reflexivity|].
  simpl. destruct l as [|y l]; [reflexivity|].
  rewrite <- IH. simpl. destruct (rev l ++ [y]) eqn:E; [|reflexivity].
  now apply app_eq_nil in E as [_ ?].
Qed.

Lemma rev_last_head {A : Type} (l : list A) (d : A) :
  List.last (rev l) d = hd d l.
Proof.
  destruct l as [|x l]; [reflexivity|]. simpl. apply last_last.
Qed.

(** ** The open set only holds nodes rooted at the segment start *)

Definition rooted (segmentStart : Location) (n : PathNode) : Prop :=
  rootOf n = segmentStart.

Lemma replaceFirst_Forall (P : PathNode -> Prop) (p : PathNode -> bool)
    (new : PathNode) (openSet : list PathNode) :
  P new -> Forall P openSet -> Forall P (replaceFirst p new openSet).
Proof.
  intros Hnew. induction 1 as [|n l Hn Hl IH]; simpl; [constructor|].
  destruct (p n); constructor; assumption.
Qed.

Lemma replaceFirst_length (p : PathNode -> bool) (new : PathNode)
    (openSet : list PathNode) :
  length (replaceFirst p new openSet) = length openSet.
Proof.
  induction openSet as [|n l IH]; simpl; [reflexivity|].
  destruct (p n); simpl; now rewrite ?IH.
Qed.

Lemma visitNeighbor_rooted (segmentStart segmentEnd : Location)
    (current : PathNode) (closedSet openSet : list PathNode)
    (neighborLoc : Location) :
  rooted segmentStart current ->
  Forall (rooted segmentStart) openSet ->
  Forall (rooted segmentStart)
    (visitNeighbor M current segmentEnd closedSet openSet neighborLoc).
Proof.
  intros Hcur Hopen. unfold visitNeighbor.
  destruct (existsb _ closedSet); [exact Hopen|].
  destruct (find _ openSet) as [existing|].
  - destruct (g existing <=? _); [exact Hopen|].
    apply replaceFirst_Forall; [exact Hcur|exact Hopen].
  - apply Forall_app. split; [exact Hopen|]. constructor; [exact Hcur|constructor].
Qed.

(** The open set never shrinks while the neighbors of a node are visited. *)
Lemma visitNeighbor_length (segmentEnd : Location) (current : PathNode)
    (closedSet openSet : list PathNode) (neighborLoc : Location) :
  (length openSet
   <= length (visitNeighbor M current segmentEnd closedSet openSet neighborLoc))%nat.
Proof.
  unfold visitNeighbor.
  destruct (existsb _ closedSet); [lia|].
  destruct (find _ openSet) as [existing|].
  - destruct (g existing <=? _); [lia|]. rewrite replaceFirst_length. lia.
  - rewrite length_app. simpl. lia.
Qed.

Lemma visitAll_rooted (segmentStart segmentEnd : Location) (current : PathNode)
    (closedSet : list PathNode) (neighbors : list Location)
    (openSet : list PathNode) :
  rooted segmentStart current ->
  Forall (rooted segmentStart) openSet ->
  Forall (rooted segmentStart)
    (fold_left (visitNeighbor M current segmentEnd closedSet) neighbors openSet).
Proof.
  intros Hcur. revert openSet.
  induction neighbors as [|loc l IH]; intros openSet Hopen; [exact Hopen|].
  simpl. apply IH. now apply visitNeighbor_rooted.
Qed.

(** ** What a segment search returns *)

Inductive Outcome (segmentStart segmentEnd : Location) : acc -> acc -> Prop :=
| Reached (st : acc) (n : PathNode) :
    rooted segmentStart n ->
    (haversineDistance M (location n) segmentEnd <? 0.1) = true ->
    Outcome segmentStart segmentEnd st
      (fst st ++ parentChain n, snd st + g n)
| GaveUp (st : acc) :
    Outcome segmentStart segmentEnd st
      (fst st ++ [segmentStart; segmentEnd],
       snd st + haversineDistance M segmentStart segmentEnd).

Lemma search_outcome (fuel : nat) (segmentStart segmentEnd : Location)
    (openSet closedSet : list PathNode) (st st' : acc) :
  openSet <> [] ->
  Forall (rooted segmentStart) openSet ->
  search M fuel segmentStart segmentEnd openSet closedSet st = Some st' ->
  Outcome segmentStart segmentEnd st st'.
Proof.
  revert openSet closedSet.
  induction fuel as [|fuel IH]; intros openSet closedSet Hne Hall; [discriminate|].
  cbn [search].
  pose proof (SortFacts.sort_nonempty (fun a b => f a - f b) openSet Hne) as Hs.
  pose proof (SortFacts.sort_Forall (fun a b => f a - f b) _ openSet Hall) as Hf.
  destruct (sort (fun a b => f a - f b) openSet) as [|current openSet1];
    [contradiction|].
  inversion Hf as [|? ? Hcur Hrest]; subst.
  destruct (haversineDistance M (location current) segmentEnd <? 0.1) eqn:Hgoal.
  - intros [= <-]. now constructor.
  - pose proof (visitAll_rooted segmentStart segmentEnd current
                  (closedSet ++ [current])
                  (generateNeighbors (location current) segmentEnd)
                  openSet1 Hcur Hrest) as Hopen2.
    destruct (fold_left _ _ openSet1) as [|n rest] eqn:Hopen.
    + intros [= <-]. constructor.
    + apply IH; [discriminate|exact Hopen2].
Qed.

(** The accumulated path and distance are only added to: a search started
    from another accumulator makes the same pushes. *)
Lemma search_accumulates (fuel : nat) (segmentStart segmentEnd : Location)
    (openSet closedSet : list PathNode) (st st' : acc) :
  openSet <> [] ->
  search M fuel segmentStart segmentEnd openSet closedSet st = Some st' ->
  exists pushed d,
    pushed <> []
    /\ st' = (fst st ++ pushed, snd st + d)
    /\ forall st0,
         search M fuel segmentStart segmentEnd openSet closedSet st0
         = Some (fst st0 ++ pushed, snd st0 + d).
Proof.
  revert openSet closedSet.
  induction fuel as [|fuel IH]; intros openSet closedSet Hne; [discriminate|].
  cbn [search].
  pose proof (SortFacts.sort_nonempty (fun a b => f a - f b) openSet Hne) as Hs.
  destruct (sort (fun a b => f a - f b) openSet) as [|current openSet1];
    [contradiction|].
  destruct (haversineDistance M (location current) segmentEnd <? 0.1).
  - intros [= <-]. exists (parentChain current), (g current).
    split; [|split; [reflexivity|reflexivity]].
    destruct (parentChain_nonempty current) as (rest & ->). discriminate.
  - destruct (fold_left _ _ openSet1) as [|n rest] eqn:Hopen.
    + intros [= <-]. exists [segmentStart; segmentEnd],
        (haversineDistance M segmentStart segmentEnd).
      split; [discriminate|split; reflexivity].
    + intros H. apply IH in H; [exact H|discriminate].
Qed.

Lemma search_fails_alike (fuel : nat) (segmentStart segmentEnd : Location)
    (openSet closedSet : list PathNode) (st st0 : acc) :
  openSet <> [] ->
  search M fuel segmentStart segmentEnd openSet closedSet st = None ->
  search M fuel segmentStart segmentEnd openSet closedSet st0 = None.
Proof.
  intros Hne Hnone.
  destruct (search M fuel segmentStart segmentEnd openSet closedSet st0) as [st0'|] eqn:H0;
    [|reflexivity].
  apply search_accumulates in H0 as (pushed & d & _ & _ & Hany); [|exact Hne].
  rewrite Hany in Hnone. discriminate.
Qed.

End WithMath.
End AstarShape.

Section AstarRoutes.
Variable M : MathLib.

Lemma startNode_open (segmentStart segmentEnd : Location) :
  [startNode M segmentStart segmentEnd] <> []
  /\ Forall (AstarShape.rooted segmentStart) [startNode M segmentStart segmentEnd].
Proof. split; [discriminate|]. now repeat constructor. Qed.

Lemma segments_step (fuel : nat) (a b : Location) (rest : list Location)
    (st : acc) :
  segments M fuel (a :: b :: rest) st
  = match search M fuel a b [startNode M a b] [] st with
    | Some st' => segments M fuel (b :: rest) st'
    | None => None
    end.
Proof. reflexivity. Qed.

(** Every segment pushes at least one point, whatever was pushed before. *)
Lemma segments_accumulate (fuel : nat) (allPoints : list Location) (st st' : acc) :
  segments M fuel allPoints st = Some st' ->
  exists pushed,
    fst st' = fst st ++ pushed
    /\ (length allPoints - 1 <= length pushed)%nat
    /\ forall st0, exists t,
         segments M fuel allPoints st0 = Some (fst st0 ++ pushed, t).
Proof.
  revert st. induction allPoints as [|a rest IH]; intros st.
  - intros [= <-]. exists []. rewrite app_nil_r. repeat split; [simpl; lia|].
    intros st0. exists (snd st0). rewrite app_nil_r. now destruct st0.
  - destruct rest as [|b rest].
    + intros [= <-]. exists []. rewrite app_nil_r. repeat split; [simpl; lia|].
      intros st0. exists (snd st0). rewrite app_nil_r. now destruct st0.
    + rewrite segments_step.
      destruct (search M fuel a b [startNode M a b] [] st) as [st1|] eqn:Hs;
        [|discriminate].
      intros Hrest.
      apply AstarShape.search_accumulates in Hs
        as (pushed1 & d & Hne & -> & Hany); [|discriminate].
      apply IH in Hrest as (pushed2 & Hfst & Hlen & Hany2).
      cbn [fst snd] in Hfst.
      exists (pushed1 ++ pushed2). rewrite app_assoc. split; [exact Hfst|]. split.
      * rewrite length_app. destruct pushed1; [contradiction|].
        cbn [length] in *. lia.
      * intros st0.
        destruct (Hany2 (fst st0 ++ pushed1, snd st0 + d)) as (t & Ht).
        exists t. rewrite segments_step, Hany, Ht. cbn [fst].
        now rewrite app_assoc.
Qed.

Lemma segments_fail_alike (fuel : nat) (allPoints : list Location) (st st0 : acc) :
  segments M fuel allPoints st = None -> segments M fuel allPoints st0 = None.
Proof.
  intros Hnone.
  destruct (segments M fuel allPoints st0) as [st0'|] eqn:H0; [|reflexivity].
  apply segments_accumulate in H0 as (pushed & _ & _ & Hany).
  destruct (Hany st) as (t & Ht). rewrite Ht in Hnone. discriminate.
Qed.

Lemma astarPathfinding_pushed (fuel : nat) (start goal : Location)
    (waypoints : list Location) (r : Route) :
  astarPathfinding M fuel start goal waypoints = Some r <->
  exists pushed t,
    segments M fuel (start :: waypoints ++ [goal]) ([], 0) = Some (pushed, t)
    /\ r = mkRoute (rev pushed) t.
Proof.
  unfold astarPathfinding.
  destruct (segments M fuel (start :: waypoints ++ [goal]) ([], 0)) as [[p t]|].
  - split.
    + intros [= <-]. now exists p, t.
    + intros (p' & t' & [= <- <-] & ->). reflexivity.
  - split; [discriminate|]. intros (p' & t' & H & _). discriminate.
Qed.

End AstarRoutes.

(** A start already within 0.1 km of the goal is the whole path: the search
    returns on its first turn with the single point [start] and distance
    0. *)
Theorem astarPathfinding_already_there (M : MathLib) (fuel : nat)
    (start goal : Location) :
  (haversineDistance M start goal <? 0.1) = true ->
  astarPathfinding M (S fuel) start goal [] = Some (mkRoute [start] 0).
Proof.
  intros Hnear. unfold astarPathfinding.
  cbn [app segments search startNode sort sort_insert location].
  rewrite Hnear. reflexivity.
Qed.

Lemma astarPathfinding_already_there_witness :
  astarPathfinding refMath 1 (mkLocation 0 0) (mkLocation 0.0005 0) []
  = Some (mkRoute [mkLocation 0 0] 0).
Proof. apply astarPathfinding_already_there. vm_compute. reflexivity. Defined.

(** Without waypoints a returned path is one of two things: a path that
    begins at [start] and ends within 0.1 km of [goal], with the last node's
    cost as distance; or, when the open set emptied, the two points
    [goal; start] (goal first) with the straight-line distance. *)
Theorem astarPathfinding_direct_route (M : MathLib) (fuel : nat)
    (start goal : Location) (r : Route) :
  astarPathfinding M fuel start goal [] = Some r ->
  (hd_error (path r) = Some start
   /\ (haversineDistance M (List.last (path r) start) goal <? 0.1) = true
   /\ exists n, path r = rev (parentChain n) /\ totalDistance r = 0 + g n)
  \/ (path r = [goal; start]
      /\ totalDistance r = 0 + haversineDistance M start goal).
Proof.
  intros Hr. apply astarPathfinding_pushed in Hr as (pushed & t & Hseg & ->).
  cbn [app segments] in Hseg.
  destruct (search M fuel start goal [startNode M start goal] [] ([], 0))
    as [st1|] eqn:Hs; [|discriminate].
  injection Hseg as ->.
  destruct (startNode_open M start goal) as [Hne Hroot].
  apply AstarShape.search_outcome in Hs; [|exact Hne|exact Hroot].
  inversion Hs as [? n Hrooted Hgoal|?]; subst; cbn [fst snd app] in *.
  - left. cbn [path totalDistance].
    destruct (AstarShape.parentChain_nonempty n) as (rest & Hchain).
    split; [|split].
    + pose proof (AstarShape.rev_head_last (parentChain n) start) as Hhd.
      rewrite AstarShape.parentChain_last, Hrooted in Hhd.
      destruct (rev (parentChain n)) as [|x l] eqn:Hrev.
      * apply (f_equal (@length _)) in Hrev. rewrite length_rev, Hchain in Hrev.
        discriminate.
      * simpl in Hhd. now subst.
    + rewrite AstarShape.rev_last_head, Hchain. exact Hgoal.
    + now exists n.
  - right. split; reflexivity.
Qed.

Lemma astarPathfinding_direct_route_witness :
  option_map path
    (astarPathfinding refMath 100 (mkLocation 0 0) (mkLocation 0.03 0.01) [])
  = Some [mkLocation 0 0; mkLocation 0.01 0; mkLocation 0.02 0;
          mkLocation (0.02 + 0.01) 0.01]
  /\ forall r,
       astarPathfinding refMath 100 (mkLocation 0 0) (mkLocation 0.03 0.01) []
       = Some r ->
       (hd_error (path r) = Some (mkLocation 0 0)
        /\ (haversineDistance refMath (List.last (path r) (mkLocation 0 0))
              (mkLocation 0.03 0.01) <? 0.1) = true
        /\ exists n, path r = rev (parentChain n) /\ totalDistance r = 0 + g n)
       \/ (path r = [mkLocation 0.03 0.01; mkLocation 0 0]
           /\ totalDistance r
              = 0 + haversineDistance refMath (mkLocation 0 0) (mkLocation 0.03 0.01)).
Proof.
  split; [vm_compute; reflexivity|].
  intros r Hr.
  exact (astarPathfinding_direct_route refMath 100 (mkLocation 0 0)
           (mkLocation 0.03 0.01) r Hr).
Defined.

(** With waypoints the legs come out last leg first: the path through
    [w :: ws] is the path from [w] on, followed by the path of the first
    leg from [start] to [w]; and the whole search returns exactly when both
    do. *)
Theorem astarPathfinding_legs_reversed (M : MathLib) (fuel : nat)
    (start goal w : Location) (ws : list Location) :
  (forall r,
      astarPathfinding M fuel start goal (w :: ws) = Some r ->
      exists r1 r2,
        astarPathfinding M fuel start w [] = Some r1
        /\ astarPathfinding M fuel w goal ws = Some r2
        /\ path r = path r2 ++ path r1)
  /\ (forall r1 r2,
        astarPathfinding M fuel start w [] = Some r1 ->
        astarPathfinding M fuel w goal ws = Some r2 ->
        exists r,
          astarPathfinding M fuel start goal (w :: ws) = Some r
          /\ path r = path r2 ++ path r1).
Proof.
  split.
  - intros r Hr. apply astarPathfinding_pushed in Hr as (pushed & t & Hseg & ->).
    change (start :: (w :: ws) ++ [goal]) with (start :: w :: (ws ++ [goal])) in Hseg.
    rewrite segments_step in Hseg.
    destruct (search M fuel start w [startNode M start w] [] ([], 0))
      as [st1|] eqn:Hs; [|discriminate].
    apply segments_accumulate in Hseg as (pushed2 & Hfst & _ & Hany).
    cbn [fst] in Hfst. subst pushed.
    destruct (Hany ([], 0)) as (t2 & Ht2). cbn [fst app] in Ht2.
    exists (mkRoute (rev (fst st1)) (snd st1)), (mkRoute (rev pushed2) t2).
    split; [|split].
    + unfold astarPathfinding. cbn [app segments]. rewrite Hs. now destruct st1.
    + unfold astarPathfinding.
      change (w :: ws ++ [goal]) with (w :: (ws ++ [goal])). now rewrite Ht2.
    + cbn [path]. apply rev_app_distr.
  - intros r1 r2 H1 H2.
    apply astarPathfinding_pushed in H1 as (p1 & t1 & Hseg1 & ->).
    apply astarPathfinding_pushed in H2 as (p2 & t2 & Hseg2 & ->).
    cbn [app segments] in Hseg1.
    destruct (search M fuel start w [startNode M start w] [] ([], 0))
      as [st1|] eqn:Hs; [|discriminate].
    injection Hseg1 as ->.
    apply segments_accumulate in Hseg2 as (pushed2 & Hfst & _ & Hany).
    cbn [fst app] in Hfst. subst p2.
    destruct (Hany (p1, t1)) as (t & Ht). cbn [fst] in Ht.
    exists (mkRoute (rev (p1 ++ pushed2)) t). split.
    + unfold astarPathfinding.
      change (start :: (w :: ws) ++ [goal]) with (start :: w :: (ws ++ [goal])).
      rewrite segments_step, Hs, Ht. reflexivity.
    + cbn [path]. apply rev_app_distr.
Qed.

Lemma astarPathfinding_legs_reversed_witness :
  exists r r1 r2,
    astarPathfinding refMath 10 (mkLocation 0 0) (mkLocation 0.02 0.02)
      [mkLocation 0.01 0.01] = Some r
    /\ astarPathfinding refMath 10 (mkLocation 0 0) (mkLocation 0.01 0.01) []
       = Some r1
    /\ astarPathfinding refMath 10 (mkLocation 0.01 0.01) (mkLocation 0.02 0.02) []
       = Some r2
    /\ path r = path r2 ++ path r1.
Proof.
  destruct (astarPathfinding refMath 10 (mkLocation 0 0) (mkLocation 0.02 0.02)
              [mkLocation 0.01 0.01]) as [r|] eqn:Hr.
  - destruct (proj1 (astarPathfinding_legs_reversed refMath 10 (mkLocation 0 0)
                       (mkLocation 0.02 0.02) (mkLocation 0.01 0.01) []) r Hr)
      as (r1 & r2 & H1 & H2 & Hpath).
    exists r, r1, r2. auto.
  - exfalso. revert Hr. vm_compute. discriminate.
Defined.

(** Whenever the search returns, the path has a point for every segment at
    least: it is never empty. *)
Theorem astarPathfinding_path_nonempty (M : MathLib) (fuel : nat)
    (start goal : Location) (waypoints : list Location) (r : Route) :
  astarPathfinding M fuel start goal waypoints = Some r ->
  (S (length waypoints) <= length (path r))%nat /\ path r <> [].
Proof.
  intros Hr. apply astarPathfinding_pushed in Hr as (pushed & t & Hseg & ->).
  apply segments_accumulate in Hseg as (pushed' & Hfst & Hlen & _).
  cbn [fst app] in Hfst. subst pushed'. cbn [path].
  cbn [length] in Hlen. rewrite length_app in Hlen. cbn [length] in Hlen.
  assert (Hl : (S (length waypoints) <= length (rev pushed))%nat)
    by (rewrite length_rev; lia).
  split; [exact Hl|]. intros Hnil. rewrite Hnil in Hl. simpl in Hl. lia.
Qed.

Lemma astarPathfinding_path_nonempty_witness :
  exists r,
    astarPathfinding refMath 10 (mkLocation 0 0) (mkLocation 0.005 0.005) [] = Some r
    /\ (1 <= length (path r))%nat /\ path r <> [].
Proof.
  destruct (astarPathfinding refMath 10 (mkLocation 0 0) (mkLocation 0.005 0.005) [])
    as [r|] eqn:Hr.
  - exists r. split; [reflexivity|].
    exact (astarPathfinding_path_nonempty refMath 10 (mkLocation 0 0)
             (mkLocation 0.005 0.005) [] r Hr).
  - exfalso. revert Hr. vm_compute. discriminate.
Defined.

(* ################################################################# *)
(** * Further properties of the profile learner *)

Lemma NoDup_snoc (l : list string) (x : string) :
  List.NoDup l -> ~ In x l -> List.NoDup (l ++ [x]).
Proof.
  induction 1 as [|y l Hy Hl IH]; intros Hx; simpl.
  - constructor; [intros []|constructor].
  - constructor.
    + intros Hin. apply in_app_or in Hin as [Hin|[<-|[]]]; [now apply Hy|].
      apply Hx. now left.
    + apply IH. intros Hin. apply Hx. now right.
Qed.

(** A call changes the preferred vehicle types in one way only: it appends
    the ride's class, and only when the ride was accepted, rated 4 or more
    and its class was not there yet.  So a list without duplicates stays
    without duplicates, a rejected or low-rated ride (a NaN rating too)
    changes nothing, arrays of other profiles are not touched, and the
    rating is appended to the ratings. *)
Theorem updateUserProfile_preferences_grow (σ : store) (now1 now2 now3 : Date)
    (userProfile : UserProfile) (ride : Ride) (rating : float) (accepted : bool) :
  let result := updateUserProfile σ now1 now2 now3 userProfile ride rating accepted in
  let before := preferredTypesOf σ userProfile in
  let after := preferredTypesOf (fst result) (snd result) in
  (after = before
   \/ (after = before ++ [vehicle_type ride]
       /\ accepted = true /\ (4 <=? rating) = true
       /\ ~ In (vehicle_type ride) before))
  /\ (List.NoDup before -> List.NoDup after)
  /\ (accepted = false \/ (4 <=? rating) = false -> fst result = σ)
  /\ (forall r, r <> preferredVehicleTypes (preferences userProfile) ->
        deref (fst result) r = deref σ r)
  /\ ratings (snd result) = ratings userProfile ++ [rating].
Proof.
  cbv zeta.
  assert (Hcases :
    preferredTypesOf
      (fst (updateUserProfile σ now1 now2 now3 userProfile ride rating accepted))
      (snd (updateUserProfile σ now1 now2 now3 userProfile ride rating accepted))
    = preferredTypesOf σ userProfile
    \/ (preferredTypesOf
          (fst (updateUserProfile σ now1 now2 now3 userProfile ride rating accepted))
          (snd (updateUserProfile σ now1 now2 now3 userProfile ride rating accepted))
        = preferredTypesOf σ userProfile ++ [vehicle_type ride]
        /\ accepted = true /\ (4 <=? rating) = true
        /\ ~ In (vehicle_type ride) (preferredTypesOf σ userProfile))).
  { unfold preferredTypesOf. rewrite updateUserProfile_shares_preferences.
    destruct accepted; [|left; now rewrite updateUserProfile_store_other].
    destruct (4 <=? rating) eqn:Hr; [|left; now rewrite updateUserProfile_store_other].
    destruct (includes (deref σ (preferredVehicleTypes (preferences userProfile)))
                (vehicle_type ride)) eqn:Hinc.
    - left. rewrite updateUserProfile_store_liked by exact Hr. now rewrite Hinc.
    - assert (Hnot : ~ In (vehicle_type ride)
                         (deref σ (preferredVehicleTypes (preferences userProfile)))).
      { intros Hin. apply includes_In in Hin. congruence. }
      right. repeat split; try assumption.
      now apply updateUserProfile_pushes. }
  split; [exact Hcases|]. split; [|split; [|split]].
  - intros Hnd. destruct Hcases as [-> | (-> & _ & _ & Hnot)]; [exact Hnd|].
    now apply NoDup_snoc.
  - intros [-> | Hr]; apply updateUserProfile_store_other; [reflexivity|].
    rewrite Hr. apply andb_false_r.
  - intros r Hr. now apply updateUserProfile_frame.
  - reflexivity.
Qed.

(* ################################################################# *)
(** * services/rideService.ts: building a profile *)

(** The columns of a [rides] row that [getUserProfile] reads. *)
Record RideRow := mkRideRow {
  row_pickup_lat : float;
  row_pickup_lng : float;
  row_dropoff_lat : float;
  row_dropoff_lng : float;
  row_price : float;
  row_vehicle_type : string;
  row_created_at : string
}.

(** The preference columns of a [profiles] row; [None] is a column that is
    absent or null. *)
Record ProfileRow := mkProfileRow {
  preferred_vehicle_types : option (list string);
  max_price : option float;
  min_driver_rating : option float;
  smoking_preference : option bool;
  music_preference : option bool;
  conversation_preference : option ConversationLevel
}.

(** [column || fallback] on a number column: absent, 0 and NaN give the
    fallback. *)
Definition numberOr (column : option float) (fallback : float) : float :=
  match column with
  | Some x => if is_nan x || (x =? 0) then fallback else x
  | None => fallback
  end.

(** [s || fallback] on a string: the empty string gives the fallback. *)
Definition stringOr (s fallback : string) : string :=
  if String.eqb s "" then fallback else s.

(** A new array in the store. *)
Definition alloc (σ : store) (items : list string) : store * ref :=
  let r := fresh (dom σ) in (<[ r := items ]> σ, r).

Section BuildProfile.
(** [new Date(s)] for a timestamp the database wrote. *)
Variable parseDate : string -> Date.

(** What the two queries of [getUserProfile] resolved to: the rides (or
    null) and the profile row (or null). *)
Definition Fetched : Type := option (list RideRow) * option ProfileRow.

(** [fetched = None] is a query that threw: the [catch] branch. *)
Definition getUserProfile (σ : store) (userId : string) (fetched : option Fetched)
    : store * UserProfile :=
  match fetched with
  | Some (rides, profile) =>
      let rideHistory :=
        map (fun ride =>
          mkRideHistory
            (mkLocation (row_pickup_lat ride) (row_pickup_lng ride))
            (mkLocation (row_dropoff_lat ride) (row_dropoff_lng ride))
            (parseDate (row_created_at ride))
            (or_zero (row_price ride))
            (stringOr (row_vehicle_type ride) "economy")
            4
            (getTimeOfDay (getHours (parseDate (row_created_at ride))))
            (getDay (parseDate (row_created_at ride))))
          (match rides with Some l => l | None => [] end) in
      let '(σ', types) :=
        alloc σ
          (match profile ≫= preferred_vehicle_types with
           | Some l => l
           | None => ["economy"%string; "comfort"%string]
           end) in
      (σ',
       mkUserProfile userId rideHistory
         (mkUserPreferences types
            (numberOr (profile ≫= max_price) 1000)
            (numberOr (profile ≫= min_driver_rating) 4.0)
            (match profile ≫= smoking_preference with Some b => b || false | None => false end)
            (match profile ≫= music_preference with Some b => b || true | None => true end)
            (match profile ≫= conversation_preference with Some c => c | None => moderate end))
         [] [])
  | None =>
      let '(σ', types) :=
        alloc σ ["economy"%string; "comfort"%string; "premium"%string] in
      (σ',
       mkUserProfile userId []
         (mkUserPreferences types 1000 4.0 false true moderate)
         [] [])
  end.

Lemma numberOr_truthy (column : option float) (fallback : float) :
  is_nan fallback = false -> (fallback =? 0) = false ->
  is_nan (numberOr column fallback) = false
  /\ (numberOr column fallback =? 0) = false.
Proof.
  intros Hnan Hzero. unfold numberOr. destruct column as [x|]; [|auto].
  destruct (is_nan x) eqn:Hx; [auto|]. destruct (x =? 0) eqn:Hx0; auto.
Qed.

Lemma alloc_fresh (σ : store) (items : list string) :
  σ !! snd (alloc σ items) = None
  /\ deref (fst (alloc σ items)) (snd (alloc σ items)) = items
  /\ forall r, is_Some (σ !! r) -> deref (fst (alloc σ items)) r = deref σ r.
Proof.
  unfold alloc, deref. cbn [fst snd].
  assert (Hfresh : σ !! fresh (dom σ) = None)
    by (apply not_elem_of_dom, is_fresh).
  split; [exact Hfresh|]. split.
  - apply lookup_total_insert_eq.
  - intros r [x Hr]. apply lookup_total_insert_ne.
    intros Heq. subst r. pose proof (eq_trans (eq_sym Hr) Hfresh) as Hno.
    discriminate Hno.
Qed.

(** [getUserProfile] never fails and never supplies ratings: whatever the
    queries gave, the profile has the id asked for, an empty [ratings] list,
    one history entry per row (each rated 4), a maximal price that is
    neither 0 nor NaN, music allowed, and a list of preferred types of its
    own: a new array, no array that existed is changed. *)
Theorem getUserProfile_profile (σ : store) (userId : string)
    (fetched : option Fetched) :
  let result := getUserProfile σ userId fetched in
  let profile := snd result in
  u_id profile = userId
  /\ ratings profile = []
  /\ length (rideHistory profile)
     = match fetched with Some (Some rows, _) => length rows | _ => 0%nat end
  /\ Forall (fun h => h_rating h = 4) (rideHistory profile)
  /\ σ !! preferredVehicleTypes (preferences profile) = None
  /\ (forall r, is_Some (σ !! r) -> deref (fst result) r = deref σ r)
  /\ preferredTypesOf (fst result) profile
     = match fetched with
       | Some (_, Some row) =>
           match preferred_vehicle_types row with
           | Some l => l
           | None => ["economy"%string; "comfort"%string]
           end
       | Some (_, None) => ["economy"%string; "comfort"%string]
       | None => ["economy"%string; "comfort"%string; "premium"%string]
       end
  /\ musicPreference (preferences profile) = true
  /\ is_nan (maxPrice (preferences profile)) = false
  /\ (maxPrice (preferences profile) =? 0) = false.
Proof.
  cbv zeta. unfold getUserProfile, preferredTypesOf.
  destruct fetched as [[rides profile]|].
  - set (items := match profile ≫= preferred_vehicle_types with
                  | Some l => l | None => _ end).
    destruct (alloc_fresh σ items) as (Hnew & Hread & Hframe).
    destruct (alloc σ items) as [σ' types] eqn:Halloc. cbn [fst snd] in *.
    cbn [u_id ratings rideHistory preferences preferredVehicleTypes musicPreference
         maxPrice].
    destruct (numberOr_truthy (profile ≫= max_price) 1000 eq_refl eq_refl)
      as [Hnan Hzero].
    repeat split; try assumption.
    + rewrite length_map. now destruct rides.
    + apply List.Forall_forall. intros h Hh.
      apply in_map_iff in Hh as (row & <- & _). reflexivity.
    + rewrite Hread. unfold items. now destruct profile as [row|].
    + destruct (profile ≫= music_preference) as [[|]|]; reflexivity.
  - set (items := ["economy"%string; "comfort"%string; "premium"%string]).
    destruct (alloc_fresh σ items) as (Hnew & Hread & Hframe).
    destruct (alloc σ items) as [σ' types] eqn:Halloc. cbn [fst snd] in *.
    cbn [u_id ratings rideHistory preferences preferredVehicleTypes musicPreference
         maxPrice].
    repeat split; try assumption. constructor.
Qed.

End BuildProfile.

Lemma labelFor_nan : labelFor nan = AverageMatch.
Proof. reflexivity. Qed.



(* ################################################################# *)
(** * services/routing.ts *)

(** [Math.ceil], computed on the exact value [(-1)^s * m * 2^e]. *)
Definition of_Z_exact (z : Z) : float :=
  SF2Prim (binary_normalize prec emax z 0 false).

Definition Math_ceil (x : float) : float :=
  match Prim2SF x with
  | S754_finite s m (Zneg k) =>
      let q := (Z.pos m / 2 ^ Z.pos k)%Z in
      let r := (Z.pos m mod 2 ^ Z.pos k)%Z in
      if s then (if (q =? 0)%Z then (-0) else of_Z_exact (- q))
      else of_Z_exact (if (r =? 0)%Z then q else q + 1)
  | _ => x
  end.

Definition calculateEstimatedDuration (distanceKm : float) : float :=
  let avgSpeedKmh := 40 in
  let durationHours := distanceKm / avgSpeedKmh in
  Math_ceil (durationHours * 60).

Record RouteResult := mkRouteResult {
  rr_path : list Location;
  rr_totalDistance : float;
  rr_duration : float;
  rr_instructions : option (list string)
}.

(** The part of an OSRM response the source reads.  A [None] is a member
    that is missing. *)
Record OsrmStep := mkOsrmStep { maneuver_instruction : option string }.
Record OsrmLeg := mkOsrmLeg { steps : option (list OsrmStep) }.
Record OsrmRoute := mkOsrmRoute {
  distance : float;
  duration : float;
  geometry_coordinates : option (list (float * float));
  legs : option (list OsrmLeg)
}.

(** How the request went: it threw (or the body was no JSON), it was
    answered with an error status, or it was answered with [data.routes]. *)
Inductive Exchange :=
| Threw
| NotOk
| Answered (routes : option (list OsrmRoute)).

Section Routing.
Variable M : MathLib.

Definition calculateHaversineDistance (loc1 loc2 : Location) : float :=
  let R := 6371 in
  let toRadians degrees := degrees * (Math_PI / 180) in
  let dLat := toRadians (lat loc2 - lat loc1) in
  let dLng := toRadians (lng loc2 - lng loc1) in
  let a :=
    sin M (dLat / 2) * sin M (dLat / 2) +
    cos M (toRadians (lat loc1)) *
    cos M (toRadians (lat loc2)) *
    sin M (dLng / 2) *
    sin M (dLng / 2) in
  let c := 2 * atan2 M (Math_sqrt a) (Math_sqrt (1 - a)) in
  R * c.

Definition getFallbackRoute (start end_ : Location) : RouteResult :=
  let steps := 20%nat in
  let path :=
    [start]
    ++ map (fun i =>
         let ratio := of_length i / (of_length steps + 1) in
         mkLocation (lat start + (lat end_ - lat start) * ratio)
                    (lng start + (lng end_ - lng start) * ratio))
         (seq 1 steps)
    ++ [end_] in
  let totalDistance := calculateHaversineDistance start end_ in
  let avgSpeedKmh := 40 in
  let duration := Math_ceil ((totalDistance / avgSpeedKmh) * 60) in
  mkRouteResult path totalDistance duration None.

(** [coordinates.map(coord => ({ lng: coord[0], lat: coord[1] }))] *)
Definition toPath (coordinates : list (float * float)) : list Location :=
  map (fun coord => mkLocation (snd coord) (fst coord)) coordinates.

(** The instructions of the steps of the first leg. *)
Definition instructionsOf (route : OsrmRoute) : list string :=
  match legs route with
  | Some (leg :: _) =>
      match steps leg with
      | Some l =>
          flat_map (fun step =>
            match maneuver_instruction step with
            | Some text => if String.eqb text "" then [] else [text]
            | None => []
            end) l
      | None => []
      end
  | _ => []
  end.

(** The result built from the route chosen; a route without a geometry
    raises a [TypeError], which is [None] here. *)
Definition resultOf (route : OsrmRoute) : option RouteResult :=
  match geometry_coordinates route with
  | Some coordinates =>
      Some (mkRouteResult (toPath coordinates)
              (distance route / 1000)
              (Math_ceil (duration route / 60))
              (Some (instructionsOf route)))
  | None => None
  end.

Definition getOptimalRoute (start end_ : Location) (exchange : Exchange)
    : RouteResult :=
  match exchange with
  | Threw | NotOk => getFallbackRoute start end_
  | Answered None | Answered (Some []) =>
      mkRouteResult [start; end_] (calculateHaversineDistance start end_) 0 None
  | Answered (Some (route :: _)) =>
      match resultOf route with
      | Some result => result
      | None => getFallbackRoute start end_
      end
  end.

(** [routes.reduce((shortest, current) =>
       current.distance < shortest.distance ? current : shortest, routes[0])] *)
Definition shortestOf (first : OsrmRoute) (routes : list OsrmRoute) : OsrmRoute :=
  fold_left (fun shortest current =>
    if distance current <? distance shortest then current else shortest)
    routes first.

(** [exchange] is the request for alternatives, [retry] the request
    [getOptimalRoute] makes when it is called. *)
Definition getShortestRoute (start end_ : Location) (exchange retry : Exchange)
    : RouteResult :=
  match exchange with
  | Threw | NotOk | Answered None | Answered (Some []) =>
      getOptimalRoute start end_ retry
  | Answered (Some (first :: rest)) =>
      match resultOf (shortestOf first (first :: rest)) with
      | Some result => result
      | None => getOptimalRoute start end_ retry
      end
  end.

End Routing.

Section RoutingFacts.
Variable M : MathLib.

Lemma calculateHaversineDistance_agrees (loc1 loc2 : Location) :
  calculateHaversineDistance M loc1 loc2 = haversineDistance M loc1 loc2.
Proof. reflexivity. Qed.

(** The fallback route has 22 points: [start], twenty points between, and
    [end_]; its distance is the haversine distance between the two and its
    duration that distance at 40 km/h, in whole minutes. *)
Theorem getFallbackRoute_endpoints (start end_ : Location) :
  let route := getFallbackRoute M start end_ in
  length (rr_path route) = 22%nat
  /\ hd_error (rr_path route) = Some start
  /\ List.last (rr_path route) start = end_
  /\ rr_totalDistance route = haversineDistance M start end_
  /\ rr_duration route = calculateEstimatedDuration (rr_totalDistance route)
  /\ rr_instructions route = None.
Proof.
  cbv zeta. unfold getFallbackRoute. cbn [rr_path rr_totalDistance rr_duration rr_instructions].
  repeat split.
Qed.

(** The exchange gave no geometry to follow: it threw, was refused, carried
    no routes, or its first route has no geometry. *)
Definition noGeometry (exchange : Exchange) : Prop :=
  match exchange with
  | Answered (Some (route :: _)) => geometry_coordinates route = None
  | _ => True
  end.

(** Whatever went wrong with the request, [getOptimalRoute] returns a path
    of at least two points from [start] to [end_] whose distance is the
    haversine distance. *)
Theorem getOptimalRoute_without_geometry (start end_ : Location)
    (exchange : Exchange) :
  noGeometry exchange ->
  let route := getOptimalRoute M start end_ exchange in
  (2 <= length (rr_path route))%nat
  /\ hd_error (rr_path route) = Some start
  /\ List.last (rr_path route) start = end_
  /\ rr_totalDistance route = haversineDistance M start end_.
Proof.
  intros Hno. cbv zeta.
  destruct (getFallbackRoute_endpoints start end_) as (Hlen & Hhd & Hlast & Hd & _).
  cbv zeta in Hlen, Hhd, Hlast, Hd.
  assert (Hfallback :
    (2 <= length (rr_path (getFallbackRoute M start end_)))%nat
    /\ hd_error (rr_path (getFallbackRoute M start end_)) = Some start
    /\ List.last (rr_path (getFallbackRoute M start end_)) start = end_
    /\ rr_totalDistance (getFallbackRoute M start end_) = haversineDistance M start end_).
  { rewrite Hlen. repeat split; try assumption. lia. }
  unfold getOptimalRoute.
  destruct exchange as [| |[[|route routes]|]]; try exact Hfallback.
  - repeat split. simpl. lia.
  - simpl in Hno. unfold resultOf. rewrite Hno. exact Hfallback.
  - repeat split. simpl. lia.
Qed.


(** ** The shortest alternative *)

Lemma shortestOf_invariant (routes seen : list OsrmRoute) (shortest : OsrmRoute) :
  In shortest seen ->
  Forall (fun r => (distance r <? distance shortest) = false) seen ->
  let chosen := shortestOf shortest routes in
  In chosen (seen ++ routes)
  /\ Forall (fun r => (distance r <? distance chosen) = false) (seen ++ routes).
Proof.
  revert seen shortest.
  induction routes as [|current routes IH]; intros seen shortest Hin Hmin; cbv zeta.
  - rewrite app_nil_r. now split.
  - change (seen ++ current :: routes) with (seen ++ [current] ++ routes).
    rewrite app_assoc. unfold shortestOf. cbn [fold_left].
    destruct (distance current <? distance shortest) eqn:Hlt.
    + apply (IH (seen ++ [current]) current).
      * apply in_or_app. right. now left.
      * apply Forall_app. split.
        -- apply List.Forall_forall. intros r Hr.
           rewrite List.Forall_forall in Hmin. specialize (Hmin r Hr).
           destruct (distance r <? distance current) eqn:Hrc; [|reflexivity].
           rewrite (FloatOrder.ltb_trans _ _ _ Hrc Hlt) in Hmin. discriminate.
        -- constructor; [|constructor].
           destruct (distance current <? distance current) eqn:Hcc; [|reflexivity].
           pose proof (FloatOrder.ltb_asym _ _ Hcc). congruence.
    + apply (IH (seen ++ [current]) shortest).
      * apply in_or_app. now left.
      * apply Forall_app. split; [exact Hmin|]. now repeat constructor.
Qed.

Lemma shortestOf_nan_first (first : OsrmRoute) (routes : list OsrmRoute) :
  is_nan (distance first) = true -> shortestOf first routes = first.
Proof.
  intros Hnan. unfold shortestOf.
  induction routes as [|current routes IH]; [reflexivity|]. cbn [fold_left].
  destruct (distance current <? distance first) eqn:Hlt; [|exact IH].
  apply FloatOrder.ltb_not_nan in Hlt as [_ Hf]. congruence.
Qed.

(** Among the alternatives [getShortestRoute] follows one that none of them
    undercuts: no route's distance is below the chosen one's.  The result
    carries that distance in km, the duration in whole minutes and one
    point per coordinate of its geometry, latitude and longitude taken from
    the second and first component.  A first route whose distance is NaN
    is never replaced. *)
Theorem getShortestRoute_picks_minimum (start end_ : Location)
    (first : OsrmRoute) (rest : list OsrmRoute) (retry : Exchange)
    (coordinates : list (float * float)) :
  let chosen := shortestOf first (first :: rest) in
  geometry_coordinates chosen = Some coordinates ->
  let result :=
    getShortestRoute M start end_ (Answered (Some (first :: rest))) retry in
  In chosen (first :: rest)
  /\ Forall (fun route => (distance route <? distance chosen) = false)
       (first :: rest)
  /\ rr_totalDistance result = distance chosen / 1000
  /\ rr_duration result = Math_ceil (duration chosen / 60)
  /\ length (rr_path result) = length coordinates
  /\ map (fun p => (lng p, lat p)) (rr_path result) = coordinates
  /\ (is_nan (distance first) = true -> chosen = first).
Proof.
  cbv zeta. intros Hgeo.
  assert (Hmin :
    In (shortestOf first (first :: rest)) (first :: rest)
    /\ Forall (fun r => (distance r <? distance (shortestOf first (first :: rest))) = false)
         (first :: rest)).
  { change (shortestOf first (first :: rest))
      with (shortestOf (if distance first <? distance first then first else first) rest).
    replace (if distance first <? distance first then first else first) with first
      by now destruct (distance first <? distance first).
    apply (shortestOf_invariant rest [first] first); [now left|].
    constructor; [|constructor].
    destruct (distance first <? distance first) eqn:Hff; [|reflexivity].
    pose proof (FloatOrder.ltb_asym _ _ Hff). congruence. }
  destruct Hmin as [Hin Hall].
  unfold getShortestRoute, resultOf. rewrite Hgeo.
  cbn [rr_totalDistance rr_duration rr_path].
  repeat split; try assumption.
  - unfold toPath. apply length_map.
  - unfold toPath. rewrite map_map. cbn [lat lng].
    erewrite map_ext; [apply map_id|]. now intros [a b].
  - apply shortestOf_nan_first.
Qed.


(** When the request for alternatives yields nothing to follow,
    [getShortestRoute] is [getOptimalRoute] on its own request; so with both
    requests failing the result is still a path from [start] to [end_]. *)
Theorem getShortestRoute_falls_back (start end_ : Location)
    (exchange retry : Exchange) :
  match exchange with
  | Answered (Some (first :: rest)) =>
      geometry_coordinates (shortestOf first (first :: rest)) = None
  | _ => True
  end ->
  getShortestRoute M start end_ exchange retry = getOptimalRoute M start end_ retry
  /\ (noGeometry retry ->
      hd_error (rr_path (getShortestRoute M start end_ exchange retry)) = Some start
      /\ List.last (rr_path (getShortestRoute M start end_ exchange retry)) start
         = end_).
Proof.
  intros Hno.
  assert (Heq : getShortestRoute M start end_ exchange retry
                = getOptimalRoute M start end_ retry).
  { unfold getShortestRoute.
    destruct exchange as [| |[[|first rest]|]]; try reflexivity.
    unfold resultOf. now rewrite Hno. }
  split; [exact Heq|]. intros Hretry. rewrite Heq.
  destruct (getOptimalRoute_without_geometry start end_ retry Hretry)
    as (_ & Hhd & Hlast & _).
  now split.
Qed.

End RoutingFacts.

Lemma getOptimalRoute_without_geometry_witness :
  let route :=
    getOptimalRoute refMath (mkLocation 0 0) (mkLocation 1 1)
      (Answered (Some [mkOsrmRoute 1500 120 None None])) in
  (2 <= length (rr_path route))%nat
  /\ hd_error (rr_path route) = Some (mkLocation 0 0)
  /\ List.last (rr_path route) (mkLocation 0 0) = mkLocation 1 1
  /\ rr_totalDistance route
     = haversineDistance refMath (mkLocation 0 0) (mkLocation 1 1).
Proof.
  exact (getOptimalRoute_without_geometry refMath (mkLocation 0 0) (mkLocation 1 1)
           (Answered (Some [mkOsrmRoute 1500 120 None None])) eq_refl).
Defined.

Lemma getShortestRoute_picks_minimum_witness :
  let far := mkOsrmRoute 2500 300 (Some [(0, 0); (1, 2)]) None in
  let near := mkOsrmRoute 1500 120 (Some [(0, 0); (0.5, 0.5); (1, 2)]) None in
  let result :=
    getShortestRoute refMath (mkLocation 0 0) (mkLocation 2 1)
      (Answered (Some [far; near])) Threw in
  rr_totalDistance result = 1.5
  /\ rr_path result = [mkLocation 0 0; mkLocation 0.5 0.5; mkLocation 2 1].
Proof.
  cbv zeta.
  destruct (getShortestRoute_picks_minimum refMath (mkLocation 0 0) (mkLocation 2 1)
              (mkOsrmRoute 2500 300 (Some [(0, 0); (1, 2)]) None)
              [mkOsrmRoute 1500 120 (Some [(0, 0); (0.5, 0.5); (1, 2)]) None]
              Threw [(0, 0); (0.5, 0.5); (1, 2)] eq_refl)
    as (_ & _ & Hd & _ & _ & _ & _).
  split; [rewrite Hd; reflexivity|reflexivity].
Defined.

Lemma getShortestRoute_falls_back_witness :
  getShortestRoute refMath (mkLocation 0 0) (mkLocation 1 1) NotOk Threw
  = getOptimalRoute refMath (mkLocation 0 0) (mkLocation 1 1) Threw
  /\ List.last
       (rr_path (getShortestRoute refMath (mkLocation 0 0) (mkLocation 1 1) NotOk Threw))
       (mkLocation 0 0)
     = mkLocation 1 1.
Proof.
  destruct (getShortestRoute_falls_back refMath (mkLocation 0 0) (mkLocation 1 1)
              NotOk Threw I) as [Heq Hends].
  split; [exact Heq|]. now destruct (Hends I).
Defined.

(* ################################################################# *)
(** * Node identity, and what NaN does to comparisons *)

Module NodeIdentity.





Section WithMath.
Variable M : MathLib.




End WithMath.
End NodeIdentity.


Section NanEdges.
Variable M : MathLib.

(** A comparison with NaN is false, so a hard rule whose number is NaN
    eliminates nothing: a ride with a NaN price passes the price rule, a
    driver with a NaN rating passes the rating rule, and a NaN pickup
    distance passes the distance rule.  A ride with all three is kept
    exactly when its class and the smoking preference fit. *)
Theorem deductiveFiltering_nan_passes (σ : store) (rides : list Ride)
    (userProfile : UserProfile) (userLocation destination : Location)
    (ride : Ride) :
  let distance :=
    haversineDistance M userLocation
      (mkLocation (pickup_lat ride) (pickup_lng ride)) in
  (is_nan (price ride) = true \/ is_nan (maxPrice (preferences userProfile)) = true ->
   ~ priceTooHigh userProfile ride)
  /\ (is_nan (d_rating (driver ride)) = true
      \/ is_nan (preferredDriverRatings (preferences userProfile)) = true ->
      ~ driverRatedTooLow userProfile ride)
  /\ (is_nan distance = true -> ~ pickupTooFar M userLocation ride)
  /\ (is_nan (price ride) = true -> is_nan (d_rating (driver ride)) = true ->
      is_nan distance = true ->
      (In ride (deductiveFiltering M σ rides userProfile userLocation destination)
       <-> In ride rides
           /\ ~ vehicleClassExcluded σ userProfile ride
           /\ ~ smokingMismatch userProfile ride)).
Proof.
  cbv zeta.
  assert (Hp : is_nan (price ride) = true
               \/ is_nan (maxPrice (preferences userProfile)) = true ->
               ~ priceTooHigh userProfile ride).
  { unfold priceTooHigh. intros Hnan Hlt.
    apply FloatOrder.ltb_not_nan in Hlt as [H1 H2]. destruct Hnan; congruence. }
  assert (Hr : is_nan (d_rating (driver ride)) = true
               \/ is_nan (preferredDriverRatings (preferences userProfile)) = true ->
               ~ driverRatedTooLow userProfile ride).
  { unfold driverRatedTooLow. intros Hnan Hlt.
    apply FloatOrder.ltb_not_nan in Hlt as [H1 H2]. destruct Hnan; congruence. }
  assert (Hd : is_nan (haversineDistance M userLocation
                         (mkLocation (pickup_lat ride) (pickup_lng ride))) = true ->
               ~ pickupTooFar M userLocation ride).
  { unfold pickupTooFar. intros Hnan Hlt.
    apply FloatOrder.ltb_not_nan in Hlt as [H1 H2]. congruence. }
  split; [exact Hp|]. split; [exact Hr|]. split; [exact Hd|].
  intros Hprice Hrating Hdist.
  unfold deductiveFiltering. rewrite filter_In, passesRules_iff. unfold eliminated.
  split.
  - intros [Hin Hkeep]. repeat split; [exact Hin| |]; intros H; apply Hkeep; auto.
  - intros (Hin & Hclass & Hsmoke). split; [exact Hin|].
    intros [H|[H|[H|[H|H]]]].
    + now apply Hp; [left|].
    + now apply Hr; [left|].
    + now apply Hclass.
    + now apply Hsmoke.
    + now apply Hd.
Qed.

(** When no ride is in pickup range the matcher answers with the empty
    list without starting the path search: it does so even with no fuel at
    all.  A NaN user location puts every ride out of range. *)
Theorem findMatchingRides_nobody_near (fuel : nat) (availableRides : list Ride)
    (userLocation destination : Location) (maxDistanceKm : float) :
  (Forall (fun ride =>
     (haversineDistance M userLocation
        (mkLocation (pickup_lat ride) (pickup_lng ride)) <=? maxDistanceKm) = false)
     availableRides ->
   findMatchingRides M fuel availableRides userLocation destination maxDistanceKm
   = Some [])
  /\ (MathSpec M ->
      findMatchingRides M fuel availableRides (mkLocation nan nan) destination
        maxDistanceKm = Some []).
Proof.
  assert (Hgen : forall loc,
    Forall (fun ride =>
      (haversineDistance M loc
         (mkLocation (pickup_lat ride) (pickup_lng ride)) <=? maxDistanceKm) = false)
      availableRides ->
    findMatchingRides M fuel availableRides loc destination maxDistanceKm = Some []).
  { intros loc Hall. apply findMatchingRides_none_nearby.
    unfold findNearbyRides. rewrite filter_none; [reflexivity|].
    apply List.Forall_forall. intros item Hitem.
    apply in_map_iff in Hitem as (ride & <- & Hride). cbn [n_distance].
    rewrite List.Forall_forall in Hall. now apply Hall. }
  split; [apply Hgen|].
  intros HM. apply Hgen, List.Forall_forall. intros ride _.
  change (mkLocation nan nan) with AstarFacts.nowhere.
  rewrite (AstarFacts.haversineDistance_nowhere M HM).
  destruct (nan <=? maxDistanceKm) eqn:Hle; [|reflexivity].
  apply FloatOrder.leb_not_nan in Hle as [Hnan _]. discriminate Hnan.
Qed.

End NanEdges.

Lemma findMatchingRides_nobody_near_witness :
  findMatchingRides refMath 0 Sample.rides (mkLocation 40 40) Sample.there 5
  = Some []
  /\ findMatchingRides refMath 0 Sample.rides (mkLocation nan nan) Sample.there 5
     = Some [].
Proof.
  destruct (findMatchingRides_nobody_near refMath 0 Sample.rides (mkLocation 40 40)
              Sample.there 5) as [Hfar _].
  destruct (findMatchingRides_nobody_near refMath 0 Sample.rides (mkLocation 0 0)
              Sample.there 5) as [_ Hnan].
  split.
  - apply Hfar. repeat constructor.
  - apply Hnan. constructor; reflexivity.
Defined.

Lemma deductiveFiltering_nan_passes_witness :
  In (Sample.aRide "n" nan nan)
    (deductiveFiltering refMath Sample.σ0 [Sample.aRide "n" nan nan] Sample.rider
       (mkLocation nan nan) Sample.there).
Proof.
  destruct (deductiveFiltering_nan_passes refMath Sample.σ0
              [Sample.aRide "n" nan nan] Sample.rider (mkLocation nan nan)
              Sample.there (Sample.aRide "n" nan nan)) as (_ & _ & _ & Hkept).
  apply Hkept; try reflexivity.
  split; [now left|]. split.
  - intros [_ Hnot]. apply Hnot. vm_compute. now left.
  - intros Hsmoke. now apply Hsmoke.
Defined.

(** Once the path search has given a route, the matches [findMatchingRides]
    returns are ranked: every match scores at least as high as every match
    after it, and no score is NaN. *)
Theorem findMatchingRides_best_first (M : MathLib) (fuel : nat) (route : Route)
    (availableRides : list Ride) (userLocation destination : Location)
    (maxDistanceKm : float) :
  astarPathfinding M fuel userLocation destination [] = Some route ->
  exists matches,
    findMatchingRides M fuel availableRides userLocation destination maxDistanceKm
    = Some matches
    /\ StronglySorted (fun a b => (matchScore b <=? matchScore a) = true) matches
    /\ Forall (fun m => is_nan (matchScore m) = false) matches.
Proof.
  intros Hroute. eexists.
  split; [apply (findMatchingRides_found M _ _ fuel route); exact Hroute|].
  set (kept := List.filter _ _).
  assert (Hkept : Forall (fun m => is_nan (matchScore m) = false) kept).
  { apply List.Forall_forall. intros m Hm. apply filter_In in Hm as [_ Hm].
    now apply FloatOrder.ltb_not_nan in Hm. }
  split.
  - now apply (SortMore.sort_descending_ordered matchScore).
  - now apply SortFacts.sort_Forall.
Qed.

Lemma findMatchingRides_best_first_witness :
  exists matches,
    findMatchingRides refMath 10 Sample.rides Sample.here Sample.there 5
    = Some matches
    /\ StronglySorted (fun a b => (matchScore b <=? matchScore a) = true) matches.
Proof.
  destruct (astarPathfinding refMath 10 Sample.here Sample.there [])
    as [route|] eqn:Hroute.
  - destruct (findMatchingRides_best_first refMath 10 route Sample.rides
                Sample.here Sample.there 5 Hroute) as (matches & Hfound & Hs & _).
    exists matches. split; [exact Hfound|exact Hs].
  - exfalso. revert Hroute. vm_compute. discriminate.
Defined.

(** A NaN or infinite distance goes through [calculatePrice] as it is, for
    every vehicle class: no fare is made up. *)
Theorem calculatePrice_not_finite (vehicleType : string) :
  calculatePrice nan vehicleType = nan
  /\ calculatePrice infinity vehicleType = infinity
  /\ calculatePrice neg_infinity vehicleType = neg_infinity.
Proof.
  unfold calculatePrice.
  destruct (String.eqb vehicleType "economy"); [repeat split|].
  destruct (String.eqb vehicleType "comfort"); [repeat split|].
  destruct (String.eqb vehicleType "premium"); repeat split.
Qed.

(* ################################################################# *)
(** * The properties above on the sample data *)

Lemma contentBasedFiltering_at_most_100_witness :
  contentBasedFiltering refMath (Sample.aRide "c" 15 5)
    (mkUserProfile "new" [] (Sample.prefs 1%nat 20 4.5) [] []) = 50.
Proof.
  destruct (contentBasedFiltering_at_most_100 refMath (Sample.aRide "c" 15 5)
              (mkUserProfile "new" [] (Sample.prefs 1%nat 20 4.5) [] []))
    as [Hempty _].
  apply Hempty. reflexivity.
Defined.

Lemma findSimilarUsers_most_similar_first_witness :
  Permutation
    (map user (findSimilarUsers Sample.σ0 Sample.rider
                 [Sample.stranger; Sample.peer; Sample.rider]))
    [Sample.peer].
Proof.
  destruct (findSimilarUsers_most_similar_first Sample.σ0 Sample.rider
              [Sample.stranger; Sample.peer; Sample.rider]) as (_ & _ & Hall).
  eapply Permutation_trans; [apply Hall; vm_compute; lia|].
  vm_compute. reflexivity.
Defined.

Lemma updateUserProfile_preferences_grow_witness :
  let ride := mkRide "r" (Sample.aDriver 5) 0 0 0.02 0.02 12 "comfort" 3 5 in
  let now := Sample.wednesdayNoon in
  List.NoDup
    (preferredTypesOf
       (fst (updateUserProfile Sample.σ0 now now now Sample.rider ride 5 true))
       (snd (updateUserProfile Sample.σ0 now now now Sample.rider ride 5 true)))
  /\ fst (updateUserProfile Sample.σ0 now now now Sample.rider ride 3 true)
     = Sample.σ0
  /\ deref (fst (updateUserProfile Sample.σ0 now now now Sample.rider ride 5 true))
       2%nat
     = deref Sample.σ0 2%nat.
Proof.
  cbv zeta.
  destruct (updateUserProfile_preferences_grow Sample.σ0 Sample.wednesdayNoon
              Sample.wednesdayNoon Sample.wednesdayNoon Sample.rider
              (mkRide "r" (Sample.aDriver 5) 0 0 0.02 0.02 12 "comfort" 3 5) 5 true)
    as (_ & Hnodup & _ & Hframe & _).
  destruct (updateUserProfile_preferences_grow Sample.σ0 Sample.wednesdayNoon
              Sample.wednesdayNoon Sample.wednesdayNoon Sample.rider
              (mkRide "r" (Sample.aDriver 5) 0 0 0.02 0.02 12 "comfort" 3 5) 3 true)
    as (_ & _ & Hsame & _).
  split; [|split].
  - apply Hnodup. vm_compute. repeat constructor. intros [].
  - apply Hsame. right. reflexivity.
  - apply Hframe. discriminate.
Defined.

Lemma getUserProfile_profile_witness :
  let result :=
    getUserProfile (fun _ => Sample.wednesdayNoon) Sample.σ0 "u"
      (Some (Some [mkRideRow 0 0 0.02 0.02 0 "" "2025-01-01"], None)) in
  deref (fst result) 1%nat = deref Sample.σ0 1%nat
  /\ ratings (snd result) = []
  /\ map h_price (rideHistory (snd result)) = [0]
  /\ map h_vehicleType (rideHistory (snd result)) = ["economy"%string].
Proof.
  cbv zeta.
  destruct (getUserProfile_profile (fun _ => Sample.wednesdayNoon) Sample.σ0 "u"
              (Some (Some [mkRideRow 0 0 0.02 0.02 0 "" "2025-01-01"], None)))
    as (_ & Hratings & _ & _ & _ & Hframe & _).
  split; [|split; [exact Hratings|split; reflexivity]].
  apply Hframe. exists ["economy"%string]. reflexivity.
Defined.
